(** * Screening and scoring engine of the stock screener

    A shallow embedding of the screening core of [main.go]
    ([calculateTechnicalIndicators], [calculateKDIndicator],
    [ScreenStocks], [meetsScreeningCriteria], the three stage checks and
    [calculateScore]) together with the properties the specification
    states about them.

    Numbers.  The program computes on [float64].  Here a [float64] is an
    exact rational ([Q]): rounding, infinities and NaN are not modelled,
    and equality of computed values is [Qeq] ([==]).  Every comparison of
    the source is the corresponding decidable comparison on [Q].

    Effects.  Console output ([fmt.Printf]) is dropped.  A slice index out
    of range is a run-time panic in Go; functions that index slices return
    [option], with [None] for the panic.  The network layer and the
    standard library's [sort.Slice] and [fmt.Sprintf] are parameters of
    the sections that use them; [GoSort] follows the library's
    [sort.Slice] itself, for the order it leaves among equal scores. *)

From Stdlib Require Import QArith Qminmax ZArith List String Bool Arith Lia Lqa.
From Stdlib Require Import Permutation Sorted.
Import ListNotations.

Open Scope Q_scope.

(** ** Comparisons of the source on [Q] *)

Definition Qlt_bool (x y : Q) : bool := negb (Qle_bool y x).

Declare Scope go_scope.
Delimit Scope go_scope with go.
Notation "x <=? y" := (Qle_bool x y) (at level 70) : go_scope.
Notation "x <? y" := (Qlt_bool x y) (at level 70) : go_scope.
Notation "x >=? y" := (Qle_bool y x) (at level 70) : go_scope.
Notation "x >? y" := (Qlt_bool y x) (at level 70) : go_scope.
Notation "x ==? y" := (Qeq_bool x y) (at level 70) : go_scope.

(** ** Data model *)

(** [StockData] of the source, field for field. *)
Record StockData : Type := mkStockData {
  Code : string;
  Name : string;
  Price : Q;
  Volume : Z;
  ROE : Q;
  RevenueGrowth : Q;
  DebtRatio : Q;
  GrossMargin : Q;
  DividendYears : Z;
  YoYGrowth : Q;
  EPSGrowth : Q;
  EPS : Q;
  MA60 : Q;
  KValue : Q;
  DValue : Q;
  AvgVolume : Z;
  Score : Q
}.

Record ScreeningCriteria : Type := mkScreeningCriteria {
  MinROE : Q;
  MinRevenueGrowth : Q;
  MaxDebtRatio : Q;
  MinDividendYears : Z;
  MinYoYGrowth : Q;
  MinEPSGrowth : Q;
  MinEPS : Q;
  RequireMA60Above : bool;
  MinKValue : Q;
  MaxKValue : Q;
  MinDValue : Q;
  MaxDValue : Q
}.

(** [StockScreener]: the HTTP client is part of the network layer and is
    left out; the screening code reads only [criteria]. *)
Record StockScreener : Type := mkStockScreener {
  criteria : ScreeningCriteria
}.

Definition NewStockScreener : StockScreener :=
  {| criteria :=
       {| MinROE := 8; MinRevenueGrowth := -5; MaxDebtRatio := 60;
          MinDividendYears := 2%Z; MinYoYGrowth := 10; MinEPSGrowth := 100;
          MinEPS := 1; RequireMA60Above := false;
          MinKValue := 30; MaxKValue := 85;
          MinDValue := 30; MaxDValue := 85 |} |}.

Record KDResult : Type := mkKDResult { K : Q; D : Q }.

(** Field assignments [stock.F = v]. *)
Definition set_Price (v : Q) (s : StockData) : StockData :=
  mkStockData (Code s) (Name s) v (Volume s) (ROE s) (RevenueGrowth s)
    (DebtRatio s) (GrossMargin s) (DividendYears s) (YoYGrowth s)
    (EPSGrowth s) (EPS s) (MA60 s) (KValue s) (DValue s) (AvgVolume s)
    (Score s).

Definition set_ROE (v : Q) (s : StockData) : StockData :=
  mkStockData (Code s) (Name s) (Price s) (Volume s) v (RevenueGrowth s)
    (DebtRatio s) (GrossMargin s) (DividendYears s) (YoYGrowth s)
    (EPSGrowth s) (EPS s) (MA60 s) (KValue s) (DValue s) (AvgVolume s)
    (Score s).

Definition set_DebtRatio (v : Q) (s : StockData) : StockData :=
  mkStockData (Code s) (Name s) (Price s) (Volume s) (ROE s)
    (RevenueGrowth s) v (GrossMargin s) (DividendYears s) (YoYGrowth s)
    (EPSGrowth s) (EPS s) (MA60 s) (KValue s) (DValue s) (AvgVolume s)
    (Score s).

Definition set_MA60 (v : Q) (s : StockData) : StockData :=
  mkStockData (Code s) (Name s) (Price s) (Volume s) (ROE s)
    (RevenueGrowth s) (DebtRatio s) (GrossMargin s) (DividendYears s)
    (YoYGrowth s) (EPSGrowth s) (EPS s) v (KValue s) (DValue s)
    (AvgVolume s) (Score s).

Definition set_KValue (v : Q) (s : StockData) : StockData :=
  mkStockData (Code s) (Name s) (Price s) (Volume s) (ROE s)
    (RevenueGrowth s) (DebtRatio s) (GrossMargin s) (DividendYears s)
    (YoYGrowth s) (EPSGrowth s) (EPS s) (MA60 s) v (DValue s)
    (AvgVolume s) (Score s).

Definition set_DValue (v : Q) (s : StockData) : StockData :=
  mkStockData (Code s) (Name s) (Price s) (Volume s) (ROE s)
    (RevenueGrowth s) (DebtRatio s) (GrossMargin s) (DividendYears s)
    (YoYGrowth s) (EPSGrowth s) (EPS s) (MA60 s) (KValue s) v
    (AvgVolume s) (Score s).

Definition set_AvgVolume (v : Z) (s : StockData) : StockData :=
  mkStockData (Code s) (Name s) (Price s) (Volume s) (ROE s)
    (RevenueGrowth s) (DebtRatio s) (GrossMargin s) (DividendYears s)
    (YoYGrowth s) (EPSGrowth s) (EPS s) (MA60 s) (KValue s) (DValue s)
    v (Score s).

Definition set_Score (v : Q) (s : StockData) : StockData :=
  mkStockData (Code s) (Name s) (Price s) (Volume s) (ROE s)
    (RevenueGrowth s) (DebtRatio s) (GrossMargin s) (DividendYears s)
    (YoYGrowth s) (EPSGrowth s) (EPS s) (MA60 s) (KValue s) (DValue s)
    (AvgVolume s) v.

(** ** Stage checks *)

Section Stages.

(** [fmt.Sprintf]: [fmtFloat p x] is the text of [x] under the verb
    [%.pf], [fmtInt n] the text of [n] under [%d]. *)
Variable fmtFloat : nat -> Q -> string.
Variable fmtInt : Z -> string.

Local Open Scope string_scope.
Local Open Scope go_scope.

(** [append(reasons, r)]. *)
Definition push (reasons : list string) (r : string) : list string :=
  (reasons ++ [r])%list.

(** [reasons = append(reasons, r)] under the guard [c]. *)
Definition append_if (c : bool) (r : string) (reasons : list string)
  : list string :=
  if c then push reasons r else reasons.

Definition checkStage1Fundamentals (stock : StockData)
  : bool * list string :=
  let reasons := @nil string in
  let reasons := append_if (ROE stock <=? 0) "ROE為負數或零" reasons in
  let reasons :=
    append_if (DebtRatio stock >=? 80)
      ("負債比過高 " ++ fmtFloat 1 (DebtRatio stock) ++ "% (>80%)")
      reasons in
  let reasons :=
    append_if (RevenueGrowth stock <=? -20)
      ("營收大幅衰退 " ++ fmtFloat 1 (RevenueGrowth stock) ++ "% (<-20%)")
      reasons in
  let reasons :=
    append_if (YoYGrowth stock <=? -30)
      ("年增率大幅衰退 " ++ fmtFloat 1 (YoYGrowth stock) ++ "% (<-30%)")
      reasons in
  let reasons :=
    append_if (EPSGrowth stock <=? -50)
      ("EPS大幅衰退 " ++ fmtFloat 1 (EPSGrowth stock) ++ "% (<-50%)")
      reasons in
  let reasons := append_if (EPS stock <=? 0) "EPS為負數或零" reasons in
  (Nat.eqb (List.length reasons) 0, reasons).

(** The counter and the reason list of a stage, as its checks update
    them. *)
Definition checks : Type := nat * list string.

(** [if excellent { passCount++ } else if acceptable { passCount++ }
    else { reasons = append(reasons, reason) }] *)
Definition tier (excellent acceptable : bool) (reason : string)
    (st : checks) : checks :=
  let '(passCount, reasons) := st in
  if excellent then (S passCount, reasons)
  else if acceptable then (S passCount, reasons)
  else (passCount, push reasons reason).

(** [if pass { passCount++ } else { reasons = append(reasons, reason) }] *)
Definition binary (pass : bool) (reason : string) (st : checks) : checks :=
  let '(passCount, reasons) := st in
  if pass then (S passCount, reasons)
  else (passCount, push reasons reason).

(** [float64(passCount)/float64(totalChecks)] *)
Definition ratio (passCount totalChecks : nat) : Q :=
  inject_Z (Z.of_nat passCount) / inject_Z (Z.of_nat totalChecks).

(** The seven checks of [checkStage2Quality], in source order. *)
Definition stage2_checks (s : StockScreener) (stock : StockData)
  : checks :=
  let st : checks := (0%nat, []) in
  let st :=
    tier (ROE stock >=? 15) (ROE stock >=? 10)
      ("ROE偏低 " ++ fmtFloat 1 (ROE stock) ++ "%") st in
  let st :=
    tier (RevenueGrowth stock >=? 10) (RevenueGrowth stock >=? 0)
      ("營收衰退 " ++ fmtFloat 1 (RevenueGrowth stock) ++ "%") st in
  let st :=
    tier (YoYGrowth stock >=? MinYoYGrowth (criteria s))
      (YoYGrowth stock >=? 0)
      ("年增率不足 " ++ fmtFloat 1 (YoYGrowth stock) ++ "%") st in
  let st :=
    tier (EPSGrowth stock >=? MinEPSGrowth (criteria s))
      (EPSGrowth stock >=? 50)
      ("EPS增長不足 " ++ fmtFloat 1 (EPSGrowth stock) ++ "%") st in
  let st :=
    binary (EPS stock >=? MinEPS (criteria s))
      ("EPS偏低 " ++ fmtFloat 2 (EPS stock)) st in
  let st :=
    tier (DebtRatio stock <=? 30) (DebtRatio stock <=? 50)
      ("負債比偏高 " ++ fmtFloat 1 (DebtRatio stock) ++ "%") st in
  let st :=
    tier (DividendYears stock >=? 5)%Z (DividendYears stock >=? 3)%Z
      ("配息不穩定 " ++ fmtInt (DividendYears stock) ++ "年") st in
  st.

Definition checkStage2Quality (s : StockScreener) (stock : StockData)
  : bool * list string :=
  let totalChecks := 7%nat in
  let '(passCount, reasons) := stage2_checks s stock in
  let qualityPassed := ratio passCount totalChecks >=? 0.6 in
  (qualityPassed, reasons).

(** The three checks of [checkStage3Technical], in source order.  The
    first one is skipped unless price and average are both positive. *)
Definition stage3_checks (stock : StockData) : checks :=
  let st : checks := (0%nat, []) in
  let st :=
    if (Price stock >? 0) && (MA60 stock >? 0) then
      let priceDiff := ((Price stock - MA60 stock) / MA60 stock) * 100 in
      tier (priceDiff >=? 5) (priceDiff >=? 0)
        ("跌破MA60 " ++ fmtFloat 1 priceDiff ++ "%") st
    else st in
  let st :=
    tier ((KValue stock >=? 50) && (KValue stock <=? 80))
      ((KValue stock >=? 30) && (KValue stock <? 90))
      ("K值不在理想區間 " ++ fmtFloat 1 (KValue stock)) st in
  let st :=
    tier ((DValue stock >=? 50) && (DValue stock <=? 80))
      ((DValue stock >=? 30) && (DValue stock <? 90))
      ("D值不在理想區間 " ++ fmtFloat 1 (DValue stock)) st in
  st.

Definition checkStage3Technical (stock : StockData)
  : bool * list string :=
  let totalChecks := 3%nat in
  let '(passCount, reasons) := stage3_checks stock in
  let technicalPassed := ratio passCount totalChecks >=? 0.5 in
  (technicalPassed, reasons).

(** The three stages in sequence.  Stages 2 and 3 are evaluated for
    their console output only. *)
Definition meetsScreeningCriteria (s : StockScreener) (stock : StockData)
  : bool :=
  let '(stage1Passed, stage1Reasons) := checkStage1Fundamentals stock in
  if negb stage1Passed then false
  else
    let '(stage2Passed, stage2Reasons) := checkStage2Quality s stock in
    let '(stage3Passed, stage3Reasons) := checkStage3Technical stock in
    stage1Passed.

End Stages.

(** ** Composite score *)

Section Score.
Local Open Scope go_scope.

(** [calculateScore] writes [stock.Score]; the updated record is
    returned. *)
Definition calculateScore (stock : StockData) : StockData :=
  let score := 0 in
  let score := score + Qmin (ROE stock / 30) 1 * 15 in
  let score := score + Qmin (RevenueGrowth stock / 20) 1 * 10 in
  let score := score + Qmin (YoYGrowth stock / 30) 1 * 15 in
  let score := score + Qmin (EPSGrowth stock / 200) 1 * 20 in
  let score := score + Qmin (EPS stock / 5) 1 * 5 in
  let score := score + (1 - DebtRatio stock / 100) * 10 in
  let score :=
    score + Qmin (inject_Z (DividendYears stock) / 10) 1 * 5 in
  let score :=
    if Price stock >? MA60 stock then score + 15 else score in
  let score :=
    if (KValue stock >=? 50) && (KValue stock <=? 80)
    then score + 8 else score in
  let score :=
    if (DValue stock >=? 50) && (DValue stock <=? 80)
    then score + 7 else score in
  set_Score score stock.

End Score.

(** ** Slices, panics and counted loops *)

(** A computation that may panic. *)
Definition bind {A B : Type} (c : option A) (k : A -> option B) : option B :=
  match c with
  | Some a => k a
  | None => None
  end.

Notation "x <- c ;; k" := (bind c (fun x => k))
  (at level 61, c at next level, right associativity).
Notation "' p <- c ;; k" := (bind c (fun x => let 'p := x in k))
  (at level 61, p pattern, c at next level, right associativity).

(** [xs[i]]: out of range is a panic. *)
Definition index (xs : list Q) (i : nat) : option Q := nth_error xs i.

(** The body of a loop run over the successive values of its counter. *)
Fixpoint iterate {S : Type} (body : nat -> S -> option S)
    (counters : list nat) (s : S) : option S :=
  match counters with
  | [] => Some s
  | i :: rest => s' <- body i s ;; iterate body rest s'
  end.

(** [for i := lo; i < hi; i++ { body }] on the loop state [s]. *)
Definition for_range {S : Type} (lo hi : nat)
    (body : nat -> S -> option S) (s : S) : option S :=
  iterate body (seq lo (hi - lo)) s.

(** ** Indicator calculator *)

Section Indicators.
Local Open Scope go_scope.

(** Body of the inner loop of [calculateKDIndicator]: the running
    [(highest, lowest)] of the 9-day window after day [j]. *)
Definition window_step (highs lows : list Q) (j : nat) (hl : Q * Q)
  : option (Q * Q) :=
  let '(highest, lowest) := hl in
  h <- index highs j ;;
  let highest := if h >? highest then h else highest in
  l <- index lows j ;;
  let lowest := if l <? lowest then l else lowest in
  Some (highest, lowest).

(** Body of the outer loop: the RSV of day [i] appended to [rsvs]. *)
Definition rsv_step (closes highs lows : list Q) (i : nat)
    (rsvs : list Q) : option (list Q) :=
  let start := (i - 8)%nat in
  let end_ := (i + 1)%nat in
  highest <- index highs start ;;
  lowest <- index lows start ;;
  '(highest, lowest) <-
    for_range start end_ (window_step highs lows) (highest, lowest) ;;
  rsv <- (if highest ==? lowest then Some 50
          else c <- index closes i ;;
               Some (((c - lowest) / (highest - lowest)) * 100)) ;;
  Some (rsvs ++ [rsv]).

(** One step of the smoothing loop over [rsvs]. *)
Definition smooth_step (kd : Q * Q) (rsv : Q) : Q * Q :=
  let '(k, d) := kd in
  let k := (2 / 3) * k + (1 / 3) * rsv in
  let d := (2 / 3) * d + (1 / 3) * k in
  (k, d).

Definition calculateKDIndicator (closes highs lows : list Q)
  : option KDResult :=
  if (List.length closes <? 9)%nat then Some {| K := 50; D := 50 |}
  else
    rsvs <- for_range 8 (List.length closes) (rsv_step closes highs lows) [] ;;
    if (List.length rsvs =? 0)%nat then Some {| K := 50; D := 50 |}
    else
      let '(k, d) := fold_left smooth_step rsvs (50, 50) in
      Some {| K := k; D := d |}.

(** [calculateTechnicalIndicators] updates [stock] in place; the updated
    record is returned. *)
Definition calculateTechnicalIndicators (stock : StockData)
    (closes highs lows : list Q) : option StockData :=
  if ((List.length closes <? 60) || (List.length highs <? 60)
      || (List.length lows <? 60))%nat
  then Some stock
  else
    let minLen := List.length closes in
    let minLen :=
      if (List.length highs <? minLen)%nat then List.length highs else minLen in
    let minLen :=
      if (List.length lows <? minLen)%nat then List.length lows else minLen in
    stock <-
      (if (60 <=? minLen)%nat then
         sum <- for_range (minLen - 60) minLen
                  (fun i sum => c <- index closes i ;; Some (sum + c)) 0 ;;
         Some (set_MA60 (sum / 60) stock)
       else Some stock) ;;
    stock <-
      (if (9 <=? minLen)%nat then
         kd <- calculateKDIndicator closes highs lows ;;
         Some (set_DValue (D kd) (set_KValue (K kd) stock))
       else Some stock) ;;
    Some (set_AvgVolume 0 stock).

End Indicators.

(** ** The indicator as the specification words it *)

Module KDSpec.

(** The trailing 9-sample window [xs[i-8..i]]. *)
Definition window (xs : list Q) (i : nat) : list Q :=
  firstn 9 (skipn (i - 8) xs).

Definition maximum (xs : list Q) : Q :=
  match xs with
  | [] => 0
  | x :: rest => fold_left Qmax rest x
  end.

Definition minimum (xs : list Q) : Q :=
  match xs with
  | [] => 0
  | x :: rest => fold_left Qmin rest x
  end.

(** RSV of day [i]: 50 on a window of zero range. *)
Definition RSV (closes highs lows : list Q) (i : nat) : Q :=
  let hi := maximum (window highs i) in
  let lo := minimum (window lows i) in
  if Qeq_bool hi lo then 50
  else 100 * (nth i closes 0 - lo) / (hi - lo).

(** The RSV of every day from the 9th sample onward, oldest first. *)
Definition RSVs (closes highs lows : list Q) : list Q :=
  map (RSV closes highs lows) (seq 8 (List.length closes - 8)).

(** [%K_n = (2/3) %K_{n-1} + (1/3) RSV_n],
    [%D_n = (2/3) %D_{n-1} + (1/3) %K_n], from the seeds [(50, 50)]. *)
Fixpoint smooth (k d : Q) (rsvs : list Q) : Q * Q :=
  match rsvs with
  | [] => (k, d)
  | rsv :: rest =>
      let k' := (2 / 3) * k + (1 / 3) * rsv in
      let d' := (2 / 3) * d + (1 / 3) * k' in
      smooth k' d' rest
  end.

Definition KD (closes highs lows : list Q) : Q * Q :=
  if (List.length closes <? 9)%nat then (50, 50)
  else smooth 50 50 (RSVs closes highs lows).

End KDSpec.

(** ** Ranking pipeline *)

(** *** What [sort.Slice] promises

    [sort.Slice(x, less)] reorders [x] so that no element is [less] than
    one before it.  The library documents that the sort is not guaranteed
    to be stable; nothing more is assumed of it here. *)

Section SortSlice.
Context {A : Type}.

(** The orders [less] may be: asymmetric, and incomparability is
    transitive. *)
Definition strict_weak_order (less : A -> A -> bool) : Prop :=
  (forall a b, less a b = true -> less b a = false) /\
  (forall a b c, less a b = false -> less b c = false -> less a c = false).

Definition sort_Slice_contract
    (sort : list A -> (A -> A -> bool) -> list A) : Prop :=
  forall x less,
    Permutation x (sort x less) /\
    (strict_weak_order less ->
     StronglySorted (fun a b => less b a = false) (sort x less)).

(** A sort that keeps the promise.  It inserts the elements one by one,
    in input order, into a sorted list; [x] travels from the front past
    every [y] with [past x y]. *)
Fixpoint insert (past : A -> A -> bool) (x : A) (sorted : list A)
  : list A :=
  match sorted with
  | [] => [x]
  | y :: rest =>
      if past x y then y :: insert past x rest else x :: y :: rest
  end.

Definition insertion_sort (past : A -> A -> bool) (x : list A) : list A :=
  fold_left (fun sorted a => insert past a sorted) x [].

(** [x] stops behind its equals: input order of ties is kept. *)
Definition sort_keeping_ties (x : list A) (less : A -> A -> bool)
  : list A :=
  insertion_sort (fun a b => negb (less a b)) x.

End SortSlice.

(** *** [sort.Slice] as the library runs it

    The program asks for Go 1.19 or later.  There [sort.Slice(x, less)]
    calls [pdqsort_func(lessSwap{less, swap}, 0, length, bits.Len(length))]
    of the library's [sort/zsortfunc.go]: insertion sort on at most 12
    elements, pattern-defeating quicksort above.  The functions below
    follow that file statement by statement.  A slice is a list and an
    index a natural number: the library never makes an index negative.
    [data.Less(i, j)] is the closure [less] applied to the elements at
    [i] and [j], and [data.Swap(i, j)] exchanges them.  [None] is a panic
    on an index out of range.

    Two functions of the file are left out: [breakPatterns_func], which
    [pdqsort_func] calls after an unbalanced partition, and
    [heapSort_func], which it calls once [breakPatterns_func] has run
    [bits.Len(length)] times.  A run that would call either is [None]
    here as well.  No slice of at most 13 elements gets there: after its
    one partition both sides have at most 12 elements. *)

Module GoSort.

Inductive sortedHint : Set :=
| unknownHint
| increasingHint
| decreasingHint.

(** [for cond { body }] on the loop state [s]; [fuel] bounds the number of
    turns. *)
Fixpoint while {St : Type} (fuel : nat) (cond : St -> option bool)
    (body : St -> option St) (s : St) : option St :=
  match fuel with
  | O => None
  | S fuel =>
      c <- cond s ;;
      if c : bool then s' <- body s ;; while fuel cond body s' else Some s
  end.

Section LessSwap.
Local Open Scope nat_scope.
Context {A : Type}.
Variable less : A -> A -> bool.

Definition Less (data : list A) (i j : nat) : option bool :=
  x <- nth_error data i ;;
  y <- nth_error data j ;;
  Some (less x y).

(** [data[i] = v] *)
Fixpoint store (data : list A) (i : nat) (v : A) : list A :=
  match data, i with
  | [], _ => []
  | _ :: rest, O => v :: rest
  | x :: rest, S i => x :: store rest i v
  end.

Definition Swap (data : list A) (i j : nat) : option (list A) :=
  x <- nth_error data i ;;
  y <- nth_error data j ;;
  Some (store (store data i y) j x).

(** More turns than any loop over [data] takes: every loop below moves an
    index by one per turn and stays within the slice. *)
Definition steps (data : list A) : nat := S (List.length data).

(** [[
for i := a + 1; i < b; i++ {
    for j := i; j > a && data.Less(j, j-1); j-- {
        data.Swap(j, j-1)
    }
}
]] *)
Definition insertionSort_func (data : list A) (a b : nat)
  : option (list A) :=
  for_range (a + 1) b
    (fun i data =>
       '(data, _) <-
         while (steps data)
           (fun '(data, j) =>
              if a <? j then Less data j (j - 1) else Some false)
           (fun '(data, j) =>
              data <- Swap data j (j - 1) ;; Some (data, j - 1))
           (data, i) ;;
       Some data)
    data.

(** [[
i := a
j := b - 1
for i < j {
    data.Swap(i, j)
    i++
    j--
}
]] *)
Definition reverseRange_func (data : list A) (a b : nat)
  : option (list A) :=
  '(data, _, _) <-
    while (steps data)
      (fun '(data, i, j) => Some (i <? j))
      (fun '(data, i, j) =>
         data <- Swap data i j ;; Some (data, i + 1, j - 1))
      (data, a, b - 1) ;;
  Some data.

(** [order2_func] returns [x, y] with [data[x] <= data[y]], and counts the
    exchange in [*swaps]. *)
Definition order2_func (data : list A) (a b swaps : nat)
  : option (nat * nat * nat) :=
  lt <- Less data b a ;;
  if lt : bool then Some (b, a, swaps + 1) else Some (a, b, swaps).

Definition median_func (data : list A) (a b c swaps : nat)
  : option (nat * nat) :=
  '(a, b, swaps) <- order2_func data a b swaps ;;
  '(b, c, swaps) <- order2_func data b c swaps ;;
  '(a, b, swaps) <- order2_func data a b swaps ;;
  Some (b, swaps).

Definition medianAdjacent_func (data : list A) (a swaps : nat)
  : option (nat * nat) :=
  median_func data (a - 1) a (a + 1) swaps.

Definition choosePivot_func (data : list A) (a b : nat)
  : option (nat * sortedHint) :=
  let shortestNinther := 50 in
  let maxSwaps := 4 * 3 in
  let l := b - a in
  let swaps := 0 in
  let i := a + l / 4 * 1 in
  let j := a + l / 4 * 2 in
  let k := a + l / 4 * 3 in
  '(j, swaps) <-
    (if 8 <=? l then
       '(i, j, k, swaps) <-
         (if shortestNinther <=? l then
            '(i, swaps) <- medianAdjacent_func data i swaps ;;
            '(j, swaps) <- medianAdjacent_func data j swaps ;;
            '(k, swaps) <- medianAdjacent_func data k swaps ;;
            Some (i, j, k, swaps)
          else Some (i, j, k, swaps)) ;;
       median_func data i j k swaps
     else Some (j, swaps)) ;;
  Some (j, if swaps =? 0 then increasingHint
           else if swaps =? maxSwaps then decreasingHint
           else unknownHint).

(** The slice it leaves and the boolean it returns.  [returned] is the
    value of a [return] already executed in an earlier turn of the loop
    over [maxSteps]. *)
Definition partialInsertionSort_func (data : list A) (a b : nat)
  : option (list A * bool) :=
  let maxSteps := 5 in
  let shortestShifting := 50 in
  '(data, _, returned) <-
    for_range 0 maxSteps
      (fun _ '(data, i, returned) =>
         match returned : option bool with
         | Some _ => Some (data, i, returned)
         | None =>
             i <- while (steps data)
                    (fun i =>
                       if i <? b
                       then lt <- Less data i (i - 1) ;; Some (negb lt)
                       else Some false)
                    (fun i => Some (i + 1))
                    i ;;
             if i =? b then Some (data, i, Some true)
             else if b - a <? shortestShifting
             then Some (data, i, Some false)
             else
               data <- Swap data i (i - 1) ;;
               data <-
                 (if 2 <=? i - a then
                    '(data, _) <-
                      while (steps data)
                        (fun '(data, j) =>
                           if 1 <=? j then Less data j (j - 1)
                           else Some false)
                        (fun '(data, j) =>
                           data <- Swap data j (j - 1) ;;
                           Some (data, j - 1))
                        (data, i - 1) ;;
                    Some data
                  else Some data) ;;
               data <-
                 (if 2 <=? b - i then
                    '(data, _) <-
                      while (steps data)
                        (fun '(data, j) =>
                           if j <? b then Less data j (j - 1)
                           else Some false)
                        (fun '(data, j) =>
                           data <- Swap data j (j - 1) ;;
                           Some (data, j + 1))
                        (data, i + 1) ;;
                    Some data
                  else Some data) ;;
               Some (data, i, None)
         end)
      (data, a + 1, None) ;;
  Some (data, match returned with Some r => r | None => false end).

(** [for i <= j && data.Less(i, a) { i++ }] followed by
    [for i <= j && !data.Less(j, a) { j-- }]. *)
Definition partition_scan (data : list A) (a i j : nat)
  : option (nat * nat) :=
  '(i, j) <-
    while (steps data)
      (fun '(i, j) => if i <=? j then Less data i a else Some false)
      (fun '(i, j) => Some (i + 1, j))
      (i, j) ;;
  while (steps data)
    (fun '(i, j) =>
       if i <=? j then lt <- Less data j a ;; Some (negb lt)
       else Some false)
    (fun '(i, j) => Some (i, j - 1))
    (i, j).

(** The loop [for { ...; if i > j { break }; data.Swap(i, j); i++; j-- }]
    of [partition_func]: the slice and [j] at the [break]. *)
Fixpoint partition_loop (fuel : nat) (data : list A) (a i j : nat)
  : option (list A * nat) :=
  match fuel with
  | O => None
  | S fuel =>
      '(i, j) <- partition_scan data a i j ;;
      if j <? i then Some (data, j)
      else
        data <- Swap data i j ;;
        partition_loop fuel data a (i + 1) (j - 1)
  end.

(** The slice it leaves, [newpivot] and [alreadyPartitioned]. *)
Definition partition_func (data : list A) (a b pivot : nat)
  : option (list A * nat * bool) :=
  data <- Swap data a pivot ;;
  let i := a + 1 in
  let j := b - 1 in
  '(i, j) <- partition_scan data a i j ;;
  if j <? i then
    data <- Swap data j a ;;
    Some (data, j, true)
  else
    data <- Swap data i j ;;
    '(data, j) <- partition_loop (steps data) data a (i + 1) (j - 1) ;;
    data <- Swap data j a ;;
    Some (data, j, false).

(** [for i <= j && !data.Less(a, i) { i++ }] followed by
    [for i <= j && data.Less(a, j) { j-- }]. *)
Definition partitionEqual_scan (data : list A) (a i j : nat)
  : option (nat * nat) :=
  '(i, j) <-
    while (steps data)
      (fun '(i, j) =>
         if i <=? j then lt <- Less data a i ;; Some (negb lt)
         else Some false)
      (fun '(i, j) => Some (i + 1, j))
      (i, j) ;;
  while (steps data)
    (fun '(i, j) => if i <=? j then Less data a j else Some false)
    (fun '(i, j) => Some (i, j - 1))
    (i, j).

(** The loop of [partitionEqual_func]: the slice and [i] at the
    [break]. *)
Fixpoint partitionEqual_loop (fuel : nat) (data : list A) (a i j : nat)
  : option (list A * nat) :=
  match fuel with
  | O => None
  | S fuel =>
      '(i, j) <- partitionEqual_scan data a i j ;;
      if j <? i then Some (data, i)
      else
        data <- Swap data i j ;;
        partitionEqual_loop fuel data a (i + 1) (j - 1)
  end.

Definition partitionEqual_func (data : list A) (a b pivot : nat)
  : option (list A * nat) :=
  data <- Swap data a pivot ;;
  partitionEqual_loop (steps data) data a (a + 1) (b - 1).

Definition maxInsertion : nat := 12.

(** One turn of the loop of [pdqsort_func] on [data[a:b]].  The variables
    [wasBalanced] and [wasPartitioned] of the loop are arguments: the next
    turn gets the updated pair, a recursive call starts from [true],
    [true].  Every turn and every call works on a shorter range, which
    [fuel] counts. *)
Fixpoint pdqsort_func (fuel : nat) (data : list A) (a b limit : nat)
    (wasBalanced wasPartitioned : bool) : option (list A) :=
  match fuel with
  | O => None
  | S fuel =>
      let length := b - a in
      if length <=? maxInsertion then insertionSort_func data a b
      else if limit =? 0 then None
      else if negb wasBalanced then None
      else
        '(pivot, hint) <- choosePivot_func data a b ;;
        '(data, pivot, hint) <-
          match hint with
          | decreasingHint =>
              data <- reverseRange_func data a b ;;
              Some (data, (b - 1) - (pivot - a), increasingHint)
          | _ => Some (data, pivot, hint)
          end ;;
        '(data, sorted) <-
          match hint with
          | increasingHint =>
              if wasBalanced && wasPartitioned
              then partialInsertionSort_func data a b
              else Some (data, false)
          | _ => Some (data, false)
          end ;;
        if sorted : bool then Some data
        else
          equal <- (if 0 <? a
                    then lt <- Less data (a - 1) pivot ;; Some (negb lt)
                    else Some false) ;;
          if equal : bool then
            '(data, mid) <- partitionEqual_func data a b pivot ;;
            pdqsort_func fuel data mid b limit wasBalanced wasPartitioned
          else
            '(data, mid, alreadyPartitioned) <-
              partition_func data a b pivot ;;
            let leftLen := mid - a in
            let rightLen := b - mid in
            let balanceThreshold := length / 8 in
            if leftLen <? rightLen then
              data <- pdqsort_func fuel data a mid limit true true ;;
              pdqsort_func fuel data (mid + 1) b limit
                (balanceThreshold <=? leftLen) alreadyPartitioned
            else
              data <- pdqsort_func fuel data (mid + 1) b limit true true ;;
              pdqsort_func fuel data a mid limit
                (balanceThreshold <=? rightLen) alreadyPartitioned
  end.

(** [bits.Len] *)
Definition bits_Len (n : nat) : nat :=
  if n =? 0 then 0 else S (Nat.log2 n).

(** [sort.Slice(x, less)]: the slice as the call leaves it. *)
Definition Slice (x : list A) : option (list A) :=
  let length := List.length x in
  pdqsort_func (S length) x 0 length (bits_Len length) true true.

End LessSwap.

End GoSort.

Section Ranking.
Local Open Scope go_scope.

Variable fmtFloat : nat -> Q -> string.
Variable fmtInt : Z -> string.

(** The network layer: [None] is a returned error.
    [FetchTechnicalData] fills in the price and the indicators of the
    record it is given. *)
Variable FetchFinancialData : string -> option StockData.
Variable FetchTechnicalData : StockData -> option StockData.

Variable sort_Slice :
  list StockData -> (StockData -> StockData -> bool) -> list StockData.

(** Body of the loop of [ScreenStocks] over the stock codes. *)
Definition screen_step (s : StockScreener)
    (qualifiedStocks : list StockData) (code : string)
  : list StockData :=
  match FetchFinancialData code with
  | None => qualifiedStocks
  | Some stock =>
      match FetchTechnicalData stock with
      | None => qualifiedStocks
      | Some stock =>
          if meetsScreeningCriteria fmtFloat fmtInt s stock
          then qualifiedStocks ++ [calculateScore stock]
          else qualifiedStocks
      end
  end.

(** [qualifiedStocks] at the end of the loop, before the sort. *)
Definition qualified (s : StockScreener) (stocks : list string)
  : list StockData :=
  fold_left (screen_step s) stocks [].

Definition by_score (a b : StockData) : bool := Score a >? Score b.

Definition ScreenStocks (s : StockScreener) (stocks : list string)
  : list StockData :=
  let qualifiedStocks := qualified s stocks in
  sort_Slice qualifiedStocks by_score.

(** The record a stock code leads to, when both fetches succeed. *)
Definition fetch (code : string) : option StockData :=
  match FetchFinancialData code with
  | None => None
  | Some stock => FetchTechnicalData stock
  end.

(** The candidates the pipeline processes: the records of the codes
    both fetches succeed on, in input order. *)
Definition fetched (stocks : list string) : list StockData :=
  flat_map (fun code => match fetch code with
                        | Some stock => [stock]
                        | None => []
                        end) stocks.

End Ranking.

(** ** Vocabulary of the statements *)

Section Vocabulary.
Local Open Scope go_scope.

(** The six exclusion conditions of stage 1, in source order. *)
Definition stage1_conditions (stock : StockData) : list bool :=
  [ ROE stock <=? 0;
    DebtRatio stock >=? 80;
    RevenueGrowth stock <=? -20;
    YoYGrowth stock <=? -30;
    EPSGrowth stock <=? -50;
    EPS stock <=? 0 ].

(** The boolean of stage 1. *)
Definition passes_stage1 (fmtFloat : nat -> Q -> string)
    (stock : StockData) : bool :=
  fst (checkStage1Fundamentals fmtFloat stock).

(** The five conditions other than the one on ROE, as propositions. *)
Definition excluded_besides_ROE (stock : StockData) : Prop :=
  (80 <= DebtRatio stock \/ RevenueGrowth stock <= -20 \/
   YoYGrowth stock <= -30 \/ EPSGrowth stock <= -50 \/
   EPS stock <= 0)%Q.

(** The five conditions other than the one on the debt ratio. *)
Definition excluded_besides_DebtRatio (stock : StockData) : Prop :=
  (ROE stock <= 0 \/ RevenueGrowth stock <= -20 \/
   YoYGrowth stock <= -30 \/ EPSGrowth stock <= -50 \/
   EPS stock <= 0)%Q.

(** How many of the seven metrics of stage 2 reach the acceptable cut
    point. *)
Definition acceptable_count (s : StockScreener) (stock : StockData)
  : nat :=
  let acceptable : list bool :=
    [ ROE stock >=? 10;
      RevenueGrowth stock >=? 0;
      YoYGrowth stock >=? 0;
      EPSGrowth stock >=? 50;
      EPS stock >=? MinEPS (criteria s);
      DebtRatio stock <=? 50;
      (DividendYears stock >=? 3)%Z ] in
  count_occ bool_dec acceptable true.

(** The seven fundamental terms of the composite score. *)
Definition fundamental_terms (stock : StockData) : Q :=
  Qmin (ROE stock / 30) 1 * 15 +
  Qmin (RevenueGrowth stock / 20) 1 * 10 +
  Qmin (YoYGrowth stock / 30) 1 * 15 +
  Qmin (EPSGrowth stock / 200) 1 * 20 +
  Qmin (EPS stock / 5) 1 * 5 +
  (1 - DebtRatio stock / 100) * 10 +
  Qmin (inject_Z (DividendYears stock) / 10) 1 * 5.

(** The two golden-zone bonuses. *)
Definition zone_bonuses (stock : StockData) : Q :=
  (if (50 <=? KValue stock) && (KValue stock <=? 80) then 8 else 0) +
  (if (50 <=? DValue stock) && (DValue stock <=? 80) then 7 else 0).

(** The ten terms of the composite score. *)
Definition score_terms (stock : StockData) : Q :=
  fundamental_terms stock +
  (if Price stock >? MA60 stock then 15 else 0) +
  zone_bonuses stock.

(** End-to-end scenario A of the specification. *)
Definition scenarioA : StockData :=
  {| Code := "A"; Name := "A"; Price := 110; Volume := 0;
     ROE := 20; RevenueGrowth := 15; DebtRatio := 20; GrossMargin := 0;
     DividendYears := 6; YoYGrowth := 25; EPSGrowth := 150; EPS := 3;
     MA60 := 100; KValue := 60; DValue := 65; AvgVolume := 0;
     Score := 0 |}.


(** A record as [FetchFinancialData] allocates it, before any field is
    filled in: every numeric field is Go's zero value. *)
Definition zero_stock (code : string) : StockData :=
  {| Code := code; Name := ""; Price := 0; Volume := 0;
     ROE := 0; RevenueGrowth := 0; DebtRatio := 0; GrossMargin := 0;
     DividendYears := 0; YoYGrowth := 0; EPSGrowth := 0; EPS := 0;
     MA60 := 0; KValue := 0; DValue := 0; AvgVolume := 0;
     Score := 0 |}.

(** End-to-end scenario C of the specification: nine days, closes rising
    from 10 to 18, highs one above and lows one below the close. *)
Definition closesC : list Q := [10; 11; 12; 13; 14; 15; 16; 17; 18].
Definition highsC : list Q := map (fun c => c + 1) closesC.
Definition lowsC : list Q := map (fun c => c - 1) closesC.

(** Nine days of positive prices whose last close, 14, lies above that
    day's high, 11. *)
Definition closesX : list Q := [10; 10; 10; 10; 10; 10; 10; 10; 14].
Definition highsX : list Q := [11; 11; 11; 11; 11; 11; 11; 11; 11].
Definition lowsX : list Q := [9; 9; 9; 9; 9; 9; 9; 9; 9].

(** A network layer that answers every code with the figures of
    scenario A. *)
Definition fetch_scenarioA (code : string) : option StockData :=
  Some {| Code := code; Name := code; Price := 0; Volume := 0;
          ROE := 20; RevenueGrowth := 15; DebtRatio := 20;
          GrossMargin := 0; DividendYears := 6; YoYGrowth := 25;
          EPSGrowth := 150; EPS := 3; MA60 := 0; KValue := 0;
          DValue := 0; AvgVolume := 0; Score := 0 |}.

Definition fetch_technical_scenarioA (stock : StockData)
  : option StockData :=
  Some (set_DValue 65 (set_KValue 60 (set_MA60 100 (set_Price 110 stock)))).

(** The stock list of [FetchStockList]. *)
Definition stockList : list string := ["2328"; "2330"]%string.

(** The record that network layer delivers for the code 2330. *)
Definition stock2330 : StockData :=
  {| Code := "2330"; Name := "2330"; Price := 110; Volume := 0;
     ROE := 20; RevenueGrowth := 15; DebtRatio := 20; GrossMargin := 0;
     DividendYears := 6; YoYGrowth := 25; EPSGrowth := 150; EPS := 3;
     MA60 := 100; KValue := 60; DValue := 65; AvgVolume := 0;
     Score := 0 |}.

(** A value of the oscillator within its nominal range. *)
Definition in_0_100 (x : Q) : Prop := (0 <= x /\ x <= 100)%Q.

Definition all_positive (xs : list Q) : Prop :=
  Forall (fun x => (0 < x)%Q) xs.

(** A valid PriceSeries in the words of the specification: three
    equal-length sequences of positive reals. *)
Definition valid_PriceSeries (closes highs lows : list Q) : Prop :=
  List.length highs = List.length closes /\
  List.length lows = List.length closes /\
  all_positive closes /\ all_positive highs /\ all_positive lows.

(** Every day's close lies between that day's low and high. *)
Definition close_within_day (closes highs lows : list Q) : Prop :=
  forall j c h l,
    index closes j = Some c -> index highs j = Some h ->
    index lows j = Some l -> (l <= c /\ c <= h)%Q.

(** A network layer that knows the codes of [table]: it answers with the
    figures of scenario A and the ROE the table gives the code, and
    returns an error on any other code. *)
Definition fetch_with_ROE (table : list (string * Q)) (code : string)
  : option StockData :=
  match find (fun entry => String.eqb (fst entry) code) table with
  | Some (_, roe) => option_map (set_ROE roe) (fetch_scenarioA code)
  | None => None
  end.

(** The first three stock codes listed in [FetchStockList], with an ROE
    each: their scores are 84, 89 and 86.5. *)
Definition three_stocks : list (string * Q) :=
  [("2328", 10); ("2330", 20); ("3379", 15)]%string.

(** The first thirteen stock codes listed in [FetchStockList]: the first
    one scores 84, the twelve others 89 each. *)
Definition thirteen_stocks : list (string * Q) :=
  [("2328", 10); ("2330", 20); ("3379", 20); ("2454", 20); ("2308", 20);
   ("2886", 20); ("2884", 20); ("2382", 20); ("3231", 20); ("2376", 20);
   ("2449", 20); ("1216", 20); ("2412", 20)]%string.

(** [sort] returns the slice as the library's [sort.Slice] leaves it, on
    every run [GoSort.Slice] covers. *)
Definition runs_as_Slice
    (sort : list StockData -> (StockData -> StockData -> bool)
            -> list StockData) : Prop :=
  forall (x : list StockData) (less : StockData -> StockData -> bool)
         (y : list StockData),
    GoSort.Slice less x = Some y -> sort x less = y.

(** Descending by composite score. *)
Definition descending_by_score (out : list StockData) : Prop :=
  StronglySorted (fun a b => (Score b <= Score a)%Q) out.

(** Candidates of equal score keep the relative order they have in
    [input]. *)
Definition ties_in_input_order (input out : list StockData) : Prop :=
  forall v : Q,
    filter (fun a => Score a ==? v) out =
    filter (fun a => Score a ==? v) input.

End Vocabulary.

(** ** Fundamentals: estimators and the fallback chain *)

(** A call that returns a value or an [error] with its message. *)
Inductive outcome (A : Type) : Type :=
| Ok (a : A)
| Error (msg : string).
Arguments Ok {A} a.
Arguments Error {A} msg.

Definition set_RevenueGrowth (v : Q) (s : StockData) : StockData :=
  mkStockData (Code s) (Name s) (Price s) (Volume s) (ROE s) v
    (DebtRatio s) (GrossMargin s) (DividendYears s) (YoYGrowth s)
    (EPSGrowth s) (EPS s) (MA60 s) (KValue s) (DValue s) (AvgVolume s)
    (Score s).

Definition set_YoYGrowth (v : Q) (s : StockData) : StockData :=
  mkStockData (Code s) (Name s) (Price s) (Volume s) (ROE s)
    (RevenueGrowth s) (DebtRatio s) (GrossMargin s) (DividendYears s) v
    (EPSGrowth s) (EPS s) (MA60 s) (KValue s) (DValue s) (AvgVolume s)
    (Score s).

Definition set_EPSGrowth (v : Q) (s : StockData) : StockData :=
  mkStockData (Code s) (Name s) (Price s) (Volume s) (ROE s)
    (RevenueGrowth s) (DebtRatio s) (GrossMargin s) (DividendYears s)
    (YoYGrowth s) v (EPS s) (MA60 s) (KValue s) (DValue s) (AvgVolume s)
    (Score s).

Definition set_EPS (v : Q) (s : StockData) : StockData :=
  mkStockData (Code s) (Name s) (Price s) (Volume s) (ROE s)
    (RevenueGrowth s) (DebtRatio s) (GrossMargin s) (DividendYears s)
    (YoYGrowth s) (EPSGrowth s) v (MA60 s) (KValue s) (DValue s)
    (AvgVolume s) (Score s).

(** [EPSData] of the source. *)
Record EPSData : Type := mkEPSData { Date : string; Value : Q }.

Section Estimators.
Local Open Scope string_scope.
Local Open Scope go_scope.

Definition estimateROE (pe : Q) : Q :=
  if (pe >? 0) && (pe <? 15) then 20
  else if (pe >=? 15) && (pe <? 25) then 15
  else 10.

(** [estimateROEFromDuPont] writes [stock.ROE] and returns [nil], or
    returns an error and leaves the record alone. *)
Definition estimateROEFromDuPont (stock : StockData) : outcome StockData :=
  if EPS stock <=? 0 then Error "insufficient data for DuPont analysis"
  else
    let estimatedROE :=
      if EPS stock >=? 10 then 15 + (EPS stock - 10) * 0.5
      else if EPS stock >=? 5 then 10 + (EPS stock - 5) * 1
      else if EPS stock >=? 1 then 5 + (EPS stock - 1) * 1.25
      else EPS stock * 5 in
    let estimatedROE :=
      if YoYGrowth stock >? 10 then estimatedROE * 1.2
      else if YoYGrowth stock <? -10 then estimatedROE * 0.8
      else estimatedROE in
    let estimatedROE :=
      if estimatedROE >? 50 then 50
      else if estimatedROE <? 0 then 1
      else estimatedROE in
    Ok (set_ROE estimatedROE stock).

(** The industry benchmark of a stock code: the [switch] of
    [estimateROEFromIndustry], on Go's byte-wise string order. *)
Definition industry_benchmark (code : string) : Q :=
  if (("2300" <=? code) && (code <=? "2399"))%string then 12
  else if (("2400" <=? code) && (code <=? "2499"))%string then 15
  else if (("2800" <=? code) && (code <=? "2899"))%string then 8
  else if (("2600" <=? code) && (code <=? "2699"))%string then 6
  else if (("1200" <=? code) && (code <=? "1299"))%string then 10
  else 10.

Definition estimateROEFromIndustry (stock : StockData) : StockData :=
  let code := Code stock in
  let industryROE := industry_benchmark code in
  let industryROE :=
    if EPSGrowth stock >? 20 then industryROE * 1.3
    else if EPSGrowth stock <? -20 then industryROE * 0.7
    else industryROE in
  let industryROE :=
    if industryROE >? 30 then 30
    else if industryROE <? 3 then 3
    else industryROE in
  set_ROE industryROE stock.

(** The latest entry: the first one of the greatest date. *)
Definition getLatestQuarterEPS (epsData : list EPSData) : Q * string :=
  match epsData with
  | [] => (0, "")
  | first :: _ =>
      let latest :=
        fold_left
          (fun latest data =>
             if (Date latest <? Date data)%string then data else latest)
          epsData first in
      (Value latest, Date latest)
  end.

Definition getLatestQuarterRevenue (revenueData : list EPSData)
  : Q * string :=
  match revenueData with
  | [] => (0, "")
  | first :: _ =>
      let latest :=
        fold_left
          (fun latest data =>
             if (Date latest <? Date data)%string then data else latest)
          revenueData first in
      (Value latest, Date latest)
  end.

End Estimators.

Section FinancialData.
Local Open Scope string_scope.
Local Open Scope go_scope.

Variable fmtFloat : nat -> Q -> string.

(** [time.Parse("2006-01-02", s)]: year, month and day of a date that
    parses. *)
Variable time_Parse : string -> option (Z * Z * Z).
(** [fmt.Sprintf("%d-%02d-%02d", year, month, day)] *)
Variable fmtDate : Z -> Z -> Z -> string.

Definition getSameQuarterLastYearEPS (epsData : list EPSData)
    (latestDate : string) : Q :=
  if (latestDate =? "")%string then 0
  else
    match time_Parse latestDate with
    | None => 0
    | Some (year, month, day) =>
        let lastYear := (year - 1)%Z in
        let targetDate := fmtDate lastYear month day in
        match find (fun data => (Date data =? targetDate)%string) epsData
        with
        | Some data => Value data
        | None => 0
        end
    end.

Definition getSameQuarterLastYearRevenue (revenueData : list EPSData)
    (latestDate : string) : Q :=
  if (latestDate =? "")%string then 0
  else
    match time_Parse latestDate with
    | None => 0
    | Some (year, month, day) =>
        let lastYear := (year - 1)%Z in
        let targetDate := fmtDate lastYear month day in
        match find (fun data => (Date data =? targetDate)%string)
                revenueData
        with
        | Some data => Value data
        | None => 0
        end
    end.

(** The network calls behind the ROE: [fetchNetIncome] (latest net income
    and its date) and [fetchAverageEquity] of a stock code, and the ROE
    [fetchROEFromTWSE] would store. *)
Variable fetchNetIncome : string -> outcome (Q * string).
Variable fetchAverageEquity : string -> string -> outcome Q.
Variable fetchROEFromTWSE : StockData -> outcome StockData.

Definition calculatePreciseROE (stock : StockData) : outcome StockData :=
  match fetchNetIncome (Code stock) with
  | Error err => Error ("無法獲取淨利數據: " ++ err)
  | Ok (netIncome, incomeDate) =>
      match fetchAverageEquity (Code stock) incomeDate with
      | Error err => Error ("無法獲取權益數據: " ++ err)
      | Ok avgEquity =>
          if (avgEquity >? 0) && negb (netIncome ==? 0) then
            let roe := (netIncome / avgEquity) * 100 in
            Ok (set_ROE roe stock)
          else
            Error ("ROE計算數據不足: netIncome=" ++ fmtFloat 0 netIncome
                   ++ ", avgEquity=" ++ fmtFloat 0 avgEquity)
      end
  end.

(** The fallback chain: the first method that returns [nil] wins. *)
Definition fetchROEData (stock : StockData) : outcome StockData :=
  match calculatePreciseROE stock with
  | Ok stock' => Ok stock'
  | Error _ =>
      match fetchROEFromTWSE stock with
      | Ok stock' => Ok stock'
      | Error _ =>
          match estimateROEFromDuPont stock with
          | Ok stock' => Ok stock'
          | Error _ => Ok (estimateROEFromIndustry stock)
          end
      end
  end.

End FinancialData.

(** ** Fundamentals: the fetch layer above the network *)

(** One entry of the [data] array of a FinMind response. *)
Record Statement : Type := mkStatement {
  item_Date : string;
  item_StockID : string;
  item_Type : string;
  item_Value : Q;
  item_OriginName : string
}.

(** What an HTTP GET followed by the JSON decoding gives. *)
Inductive http_response (A : Type) : Type :=
| RequestFailed (err : string)
| DecodeFailed (err : string)
| Decoded (a : A).
Arguments RequestFailed {A} err.
Arguments DecodeFailed {A} err.
Arguments Decoded {A} a.

(** [strings.Contains] *)
Fixpoint Contains (s substr : string) : bool :=
  prefix substr s ||
  match s with
  | EmptyString => false
  | String _ rest => Contains rest substr
  end.

Section FetchFinancial.
Local Open Scope string_scope.
Local Open Scope go_scope.

Variable fmtFloat : nat -> Q -> string.
Variable time_Parse : string -> option (Z * Z * Z).
Variable fmtDate : Z -> Z -> Z -> string.
Variable fetchNetIncome : string -> outcome (Q * string).
Variable fetchAverageEquity : string -> string -> outcome Q.
Variable fetchROEFromTWSE : StockData -> outcome StockData.
(** [fetchDebtRatioData]: a network call that writes the debt ratio or
    returns an error. *)
Variable fetchDebtRatioData : StockData -> outcome StockData.
(** The financial statements FinMind returns for a stock code. *)
Variable finMindStatements : string -> http_response (list Statement).
(** The TWSE response for a stock code, read down to the price-earnings
    figure of its first row when there is one that parses. *)
Variable twsePE : string -> http_response (option Q).

(** Body of the loop of [fetchFromFinMind] over the response: the EPS
    entries and the revenue entries, each in response order. *)
Definition collect_step (acc : list EPSData * list EPSData)
    (item : Statement) : list EPSData * list EPSData :=
  let '(epsData, revenueData) := acc in
  let epsData :=
    if (item_Type item =? "EPS")%string
       || Contains (item_OriginName item) "每股盈餘"
    then (epsData ++ [mkEPSData (item_Date item) (item_Value item)])%list
    else epsData in
  let revenueData :=
    if (item_Type item =? "Revenue")%string
       || Contains (item_OriginName item) "營業收入"
    then (revenueData ++
          [mkEPSData (item_Date item) (item_Value item)])%list
    else revenueData in
  (epsData, revenueData).

Definition fetchFromFinMind (stock : StockData) : outcome StockData :=
  match finMindStatements (Code stock) with
  | RequestFailed err => Error ("finMind API request failed: " ++ err)
  | DecodeFailed err =>
      Error ("failed to decode FinMind response: " ++ err)
  | Decoded data =>
      let '(epsData, revenueData) := fold_left collect_step data ([], []) in
      let '(latestEPS, latestEPSDate) := getLatestQuarterEPS epsData in
      let sameQuarterLastYearEPS :=
        getSameQuarterLastYearEPS time_Parse fmtDate epsData
          latestEPSDate in
      let stock := set_EPS latestEPS stock in
      let stock :=
        if (sameQuarterLastYearEPS >? 0) && (latestEPS >? 0) then
          set_EPSGrowth
            (((latestEPS - sameQuarterLastYearEPS)
              / sameQuarterLastYearEPS) * 100) stock
        else stock in
      let '(latestRevenue, latestRevenueDate) :=
        getLatestQuarterRevenue revenueData in
      let sameQuarterLastYearRevenue :=
        getSameQuarterLastYearRevenue time_Parse fmtDate revenueData
          latestRevenueDate in
      let stock :=
        if (sameQuarterLastYearRevenue >? 0) && (latestRevenue >? 0) then
          let stock :=
            set_YoYGrowth
              (((latestRevenue - sameQuarterLastYearRevenue)
                / sameQuarterLastYearRevenue) * 100) stock in
          set_RevenueGrowth (YoYGrowth stock) stock
        else stock in
      let stock :=
        match fetchROEData fmtFloat fetchNetIncome fetchAverageEquity
                fetchROEFromTWSE stock with
        | Ok stock' => stock'
        | Error _ => stock
        end in
      let stock :=
        match fetchDebtRatioData stock with
        | Ok stock' => stock'
        | Error _ => stock
        end in
      Ok stock
  end.

Definition fetchFromTWSE (stock : StockData) : outcome StockData :=
  match twsePE (Code stock) with
  | RequestFailed err => Error err
  | DecodeFailed err => Error err
  | Decoded None => Ok stock
  | Decoded (Some pe) => Ok (set_ROE (estimateROE pe) stock)
  end.

(** The record [FetchFinancialData] starts from. *)
Definition default_stock (stockCode : string) : StockData :=
  {| Code := stockCode; Name := ""; Price := 0; Volume := 0;
     ROE := 10; RevenueGrowth := 3; DebtRatio := 35; GrossMargin := 25;
     DividendYears := 3; YoYGrowth := 0; EPSGrowth := 0; EPS := 0;
     MA60 := 0; KValue := 0; DValue := 0; AvgVolume := 0; Score := 0 |}.

Definition FetchFinancialData (stockCode : string) : outcome StockData :=
  let stock := default_stock stockCode in
  match fetchFromFinMind stock with
  | Ok stock => Ok stock
  | Error _ =>
      match fetchFromTWSE stock with
      | Ok stock => Ok stock
      | Error _ =>
          let stock := set_YoYGrowth 15 stock in
          let stock := set_EPSGrowth 50 stock in
          let stock := set_EPS 2 stock in
          Ok stock
      end
  end.

End FetchFinancial.

(** ** Technical data: symbols and price cleaning *)

Section FetchTechnical.
Local Open Scope string_scope.
Local Open Scope go_scope.

(** The [otcStocks] map of [buildYahooSymbol]. *)
Definition otcStocks : list (string * bool) :=
  [("6000", true); ("6005", true); ("3379", true)].

(** [m[key]] on a [map[string]bool]: [false] for a missing key. *)
Definition lookup_bool (m : list (string * bool)) (key : string) : bool :=
  match find (fun entry => (fst entry =? key)%string) m with
  | Some entry => snd entry
  | None => false
  end.

Definition buildYahooSymbol (code : string) : string :=
  if lookup_bool otcStocks code then code ++ ".TWO" else code ++ ".TW".

(** One of the three loops of [FetchTechnicalData] over a decoded JSON
    array: an element is [Some price] when it is a number and [None]
    otherwise; the positive numbers are kept, in order. *)
Definition cleanPrices (raw : list (option Q)) : list Q :=
  fold_left
    (fun prices c =>
       match c with
       | Some price =>
           if price >? 0 then (prices ++ [price])%list else prices
       | None => prices
       end)
    raw [].

(** The end of [FetchTechnicalData]: the three slices are built from the
    [close], [high] and [low] arrays of the quote and handed to
    [calculateTechnicalIndicators]. *)
Definition quoteIndicators (stock : StockData)
    (closesRaw highsRaw lowsRaw : list (option Q)) : option StockData :=
  let closes := cleanPrices closesRaw in
  let highs := cleanPrices highsRaw in
  let lows := cleanPrices lowsRaw in
  calculateTechnicalIndicators stock closes highs lows.

End FetchTechnical.

(** ** Vocabulary of the further properties *)

Section MoreVocabulary.
Local Open Scope string_scope.
Local Open Scope go_scope.

(** The three slices are usable together: neither [highs] nor [lows] is
    shorter than [closes]. *)
Definition covers_closes (closes highs lows : list Q) : Prop :=
  (List.length closes <= List.length highs)%nat /\
  (List.length closes <= List.length lows)%nat.

(** Sixty days at a price of 10. *)
Definition flat60 : list Q := repeat 10 60.

(** A decoded quote array of sixty days at a price of 10. *)
Definition raw60 : list (option Q) := map Some flat60.

(** The record the end of [FetchTechnicalData] leaves for scenario A on
    that quote. *)
Definition scenarioA_after_quote : StockData :=
  match quoteIndicators scenarioA raw60 raw60 raw60 with
  | Some stock' => stock'
  | None => scenarioA
  end.

(** The arithmetic mean of the last 60 entries. *)
Definition trailing_mean_60 (closes : list Q) : Q :=
  fold_left Qplus (skipn (List.length closes - 60) closes) 0 / 60.

(** The three timing conditions of stage 3, as the data decides them. *)
Definition stage3_conditions (stock : StockData) : list bool :=
  [ (Price stock >? 0) && (MA60 stock >? 0) && (Price stock >=? MA60 stock);
    (KValue stock >=? 30) && (KValue stock <? 90);
    (DValue stock >=? 30) && (DValue stock <? 90) ].

(** Whether stage 3 evaluates its price-against-average check. *)
Definition trend_evaluated (stock : StockData) : bool :=
  (Price stock >? 0) && (MA60 stock >? 0).

(** The estimate of [estimateROEFromDuPont] after the adjustment for
    growth, as it reaches the final check against 50 and 0. *)
Definition growth_adjusted_estimate (stock : StockData) : Q :=
  let estimatedROE :=
    if EPS stock >=? 10 then 15 + (EPS stock - 10) * 0.5
    else if EPS stock >=? 5 then 10 + (EPS stock - 5) * 1
    else if EPS stock >=? 1 then 5 + (EPS stock - 1) * 1.25
    else EPS stock * 5 in
  if YoYGrowth stock >? 10 then estimatedROE * 1.2
  else if YoYGrowth stock <? -10 then estimatedROE * 0.8
  else estimatedROE.

(** What FinMind reports for the first quarters of 2024 and 2025: EPS 2
    then 3, revenue 100 then 125; the later year comes first. *)
Definition two_years : list Statement :=
  [ mkStatement "2025-03-31" "2330" "EPS" 3 "基本每股盈餘（元）";
    mkStatement "2025-03-31" "2330" "Revenue" 125 "營業收入";
    mkStatement "2024-03-31" "2330" "EPS" 2 "基本每股盈餘（元）";
    mkStatement "2024-03-31" "2330" "Revenue" 100 "營業收入" ]%string.

(** [time.Parse] and the [Sprintf] of the target date, on the two dates
    of that response. *)
Definition parse_quarter (s : string) : option (Z * Z * Z) :=
  if String.eqb s "2025-03-31" then Some (2025, 3, 31)%Z
  else if String.eqb s "2024-03-31" then Some (2024, 3, 31)%Z
  else None.

Definition format_quarter (year month day : Z) : string :=
  if ((year =? 2025) && (month =? 3) && (day =? 31))%Z then "2025-03-31"
  else if ((year =? 2024) && (month =? 3) && (day =? 31))%Z
       then "2024-03-31"
  else "".

(** [better] is at least as good as [stock] on every fundamental figure
    and has the same technical figures. *)
Definition at_least_as_good (better stock : StockData) : Prop :=
  (ROE stock <= ROE better /\
   RevenueGrowth stock <= RevenueGrowth better /\
   YoYGrowth stock <= YoYGrowth better /\
   EPSGrowth stock <= EPSGrowth better /\
   EPS stock <= EPS better /\
   DebtRatio better <= DebtRatio stock)%Q /\
  (DividendYears stock <= DividendYears better)%Z /\
  (Price better = Price stock /\ MA60 better = MA60 stock /\
   KValue better = KValue stock /\ DValue better = DValue stock).

End MoreVocabulary.

(** * Properties *)

(** ** Comparisons *)

Lemma Qlt_bool_iff (x y : Q) : Qlt_bool x y = true <-> x < y.
Proof.
  unfold Qlt_bool. rewrite negb_true_iff.
  split; intro H.
  - apply Qnot_le_lt. intro Hle. apply Qle_bool_iff in Hle. congruence.
  - destruct (Qle_bool y x) eqn:E; [|reflexivity].
    apply Qle_bool_iff in E. exfalso. apply (Qlt_not_le _ _ H E).
Qed.

Lemma Qlt_bool_false_iff (x y : Q) : Qlt_bool x y = false <-> y <= x.
Proof.
  unfold Qlt_bool. rewrite negb_false_iff. apply Qle_bool_iff.
Qed.

(** ** Stage 1 *)

Section Stage1Properties.
Variable fmtFloat : nat -> Q -> string.
Local Open Scope go_scope.

Lemma length_append_if c r reasons :
  List.length (append_if c r reasons) =
  (List.length reasons + Nat.b2n c)%nat.
Proof.
  destruct c; simpl.
  - unfold push. rewrite length_app. reflexivity.
  - lia.
Qed.

Lemma count_occ_b2n (b : bool) (bs : list bool) :
  count_occ bool_dec (b :: bs) true =
  (Nat.b2n b + count_occ bool_dec bs true)%nat.
Proof. destruct b; reflexivity. Qed.

Lemma stage1_reason_count stock :
  List.length (snd (checkStage1Fundamentals fmtFloat stock)) =
  count_occ bool_dec (stage1_conditions stock) true.
Proof.
  unfold checkStage1Fundamentals, stage1_conditions. cbn [snd].
  rewrite !length_append_if, !count_occ_b2n. simpl. lia.
Qed.

Lemma stage1_passed_empty stock :
  fst (checkStage1Fundamentals fmtFloat stock) =
  (List.length (snd (checkStage1Fundamentals fmtFloat stock)) =? 0)%nat.
Proof. reflexivity. Qed.

Lemma stage1_passed_bool stock :
  fst (checkStage1Fundamentals fmtFloat stock) =
  negb (existsb (fun c => c) (stage1_conditions stock)).
Proof.
  rewrite stage1_passed_empty, stage1_reason_count.
  unfold stage1_conditions.
  rewrite !count_occ_b2n. cbn [existsb count_occ].
  destruct (ROE stock <=? 0), (DebtRatio stock >=? 80),
    (RevenueGrowth stock <=? -20), (YoYGrowth stock <=? -30),
    (EPSGrowth stock <=? -50), (EPS stock <=? 0); reflexivity.
Qed.

Lemma stage1_fails_iff stock :
  fst (checkStage1Fundamentals fmtFloat stock) = false <->
  (ROE stock <= 0 \/ 80 <= DebtRatio stock \/ RevenueGrowth stock <= -20 \/
   YoYGrowth stock <= -30 \/ EPSGrowth stock <= -50 \/ EPS stock <= 0)%Q.
Proof.
  rewrite stage1_passed_bool, negb_false_iff.
  unfold stage1_conditions. cbn [existsb].
  rewrite !orb_true_iff, !Qle_bool_iff. intuition discriminate.
Qed.

Lemma stage1_passes_iff stock :
  fst (checkStage1Fundamentals fmtFloat stock) = true <->
  ~ (ROE stock <= 0 \/ 80 <= DebtRatio stock \/ RevenueGrowth stock <= -20 \/
     YoYGrowth stock <= -30 \/ EPSGrowth stock <= -50 \/ EPS stock <= 0)%Q.
Proof.
  rewrite <- stage1_fails_iff.
  destruct (fst (checkStage1Fundamentals fmtFloat stock));
    intuition congruence.
Qed.

(** C3.  [checkStage1Fundamentals] fails exactly when one of the six
    conditions holds (ROE <= 0, debt ratio >= 80, revenue growth <= -20,
    year-over-year growth <= -30, EPS growth <= -50, EPS <= 0); the reason
    list has one entry per violated condition and the result is the
    emptiness of that list.  With ROE = 0 the stage fails and with
    ROE = 0.0001 it passes unless another condition is violated; with a
    debt ratio of 80 it fails and with 79.999 it passes unless another
    condition is violated. *)
Theorem checkStage1Fundamentals_exclusion (stock : StockData) :
  let check := checkStage1Fundamentals fmtFloat in
  (fst (check stock) = false <->
   (ROE stock <= 0 \/ 80 <= DebtRatio stock \/
    RevenueGrowth stock <= -20 \/ YoYGrowth stock <= -30 \/
    EPSGrowth stock <= -50 \/ EPS stock <= 0)%Q) /\
  List.length (snd (check stock)) =
    count_occ bool_dec (stage1_conditions stock) true /\
  fst (check stock) = (List.length (snd (check stock)) =? 0)%nat /\
  fst (check (set_ROE 0 stock)) = false /\
  (fst (check (set_ROE 0.0001 stock)) = true <->
   ~ excluded_besides_ROE stock) /\
  fst (check (set_DebtRatio 80 stock)) = false /\
  (fst (check (set_DebtRatio 79.999 stock)) = true <->
   ~ excluded_besides_DebtRatio stock).
Proof.
  cbv zeta. repeat split.
  - apply stage1_fails_iff.
  - apply stage1_fails_iff.
  - apply stage1_reason_count.
  - apply stage1_fails_iff. left. simpl. lra.
  - intros H. apply stage1_passes_iff in H. unfold excluded_besides_ROE.
    simpl in H. tauto.
  - intros H. apply stage1_passes_iff. unfold excluded_besides_ROE in H.
    simpl. intros [H0 | H0]; [lra | tauto].
  - apply stage1_fails_iff. right. left. simpl. lra.
  - intros H. apply stage1_passes_iff in H.
    unfold excluded_besides_DebtRatio. simpl in H. tauto.
  - intros H. apply stage1_passes_iff.
    unfold excluded_besides_DebtRatio in H.
    simpl. intros [H0 | [H0 | H0]]; [tauto | lra | tauto].
Qed.

End Stage1Properties.

(** ** Stages 2 and 3 *)

Section Stage23Properties.
Variable fmtFloat : nat -> Q -> string.
Variable fmtInt : Z -> string.
Local Open Scope go_scope.

Lemma fst_tier excellent acceptable reason st :
  fst (tier excellent acceptable reason st) =
  (fst st + Nat.b2n (excellent || acceptable))%nat.
Proof.
  destruct st as [n rs], excellent, acceptable; simpl; lia.
Qed.

Lemma fst_binary pass reason st :
  fst (binary pass reason st) = (fst st + Nat.b2n pass)%nat.
Proof. destruct st as [n rs], pass; simpl; lia. Qed.

(** A value that reaches a stricter cut point reaches the laxer one. *)
Lemma stricter_ge (x strict lax : Q) :
  (lax <= strict)%Q -> (x >=? strict) || (x >=? lax) = (x >=? lax).
Proof.
  intros Hle. destruct (x >=? strict) eqn:E; [|reflexivity].
  simpl. symmetry. apply Qle_bool_iff. apply Qle_bool_iff in E. lra.
Qed.

Lemma stricter_le (x strict lax : Q) :
  (strict <= lax)%Q -> (x <=? strict) || (x <=? lax) = (x <=? lax).
Proof.
  intros Hle. destruct (x <=? strict) eqn:E; [|reflexivity].
  simpl. symmetry. apply Qle_bool_iff. apply Qle_bool_iff in E. lra.
Qed.

Lemma stricter_geZ (x : Z) :
  ((x >=? 5) || (x >=? 3) = (x >=? 3))%Z.
Proof.
  destruct (x >=? 5)%Z eqn:E; [|reflexivity]. simpl. lia.
Qed.

(** The counter of stage 2 is the number of metrics at or above the
    acceptable cut point, as soon as the two configured thresholds are
    the stricter ones of their tiers. *)
Lemma stage2_passCount s stock :
  (0 <= MinYoYGrowth (criteria s))%Q ->
  (50 <= MinEPSGrowth (criteria s))%Q ->
  fst (stage2_checks fmtFloat fmtInt s stock) = acceptable_count s stock.
Proof.
  intros Hyoy Heps. unfold stage2_checks, acceptable_count.
  rewrite !fst_tier, fst_binary, !fst_tier. cbn [fst].
  rewrite !count_occ_b2n. cbn [count_occ].
  rewrite (stricter_ge (ROE stock) 15 10) by lra.
  rewrite (stricter_ge (RevenueGrowth stock) 10 0) by lra.
  rewrite (stricter_ge (YoYGrowth stock) _ 0 Hyoy).
  rewrite (stricter_ge (EPSGrowth stock) _ 50 Heps).
  rewrite (stricter_le (DebtRatio stock) 30 50) by lra.
  rewrite stricter_geZ. lia.
Qed.

Lemma acceptable_count_le_7 s stock : (acceptable_count s stock <= 7)%nat.
Proof.
  unfold acceptable_count. rewrite !count_occ_b2n. cbn [count_occ].
  repeat match goal with
         | |- context [Nat.b2n ?b] => destruct b; cbn [Nat.b2n]
         end; lia.
Qed.

(** [float64(n)/7 >= 0.6] is [n >= 5] for a count of at most seven. *)
Lemma ratio_7_threshold (n : nat) :
  (n <= 7)%nat -> (ratio n 7 >=? 0.6) = (5 <=? n)%nat.
Proof.
  intros Hn.
  do 8 (destruct n as [|n]; [reflexivity|]). lia.
Qed.

Lemma checkStage2Quality_fst s stock :
  fst (checkStage2Quality fmtFloat fmtInt s stock) =
  (ratio (fst (stage2_checks fmtFloat fmtInt s stock)) 7 >=? 0.6).
Proof.
  unfold checkStage2Quality.
  destruct (stage2_checks fmtFloat fmtInt s stock); reflexivity.
Qed.

(** C6.  With the configured thresholds the stricter ones of their tiers,
    the counter of [checkStage2Quality] is the number of the seven metrics
    at or above the acceptable cut point (ROE >= 10, revenue growth >= 0,
    year-over-year growth >= 0, EPS growth >= 50, EPS >= MinEPS, debt
    ratio <= 50, dividend years >= 3), and the stage passes exactly when
    that number is at least 5, that is when count/7 >= 0.6: 4 of 7 fails,
    5 of 7 passes. *)
Theorem checkStage2Quality_threshold (s : StockScreener) (stock : StockData) :
  (0 <= MinYoYGrowth (criteria s))%Q ->
  (50 <= MinEPSGrowth (criteria s))%Q ->
  let passed := fst (checkStage2Quality fmtFloat fmtInt s stock) in
  fst (stage2_checks fmtFloat fmtInt s stock) = acceptable_count s stock /\
  (passed = true <-> (5 <= acceptable_count s stock)%nat) /\
  (passed = true <-> (0.6 <= ratio (acceptable_count s stock) 7)%Q) /\
  (acceptable_count s stock = 4%nat -> passed = false) /\
  (acceptable_count s stock = 5%nat -> passed = true).
Proof.
  intros Hyoy Heps passed.
  pose proof (stage2_passCount s stock Hyoy Heps) as Hcount.
  pose proof (acceptable_count_le_7 s stock) as Hle.
  assert (Hp : passed = (5 <=? acceptable_count s stock)%nat).
  { unfold passed. rewrite checkStage2Quality_fst, Hcount.
    apply ratio_7_threshold, Hle. }
  assert (Hq : passed = (ratio (acceptable_count s stock) 7 >=? 0.6)).
  { unfold passed. rewrite checkStage2Quality_fst, Hcount. reflexivity. }
  repeat split.
  - exact Hcount.
  - rewrite Hp. apply Nat.leb_le.
  - rewrite Hp. apply Nat.leb_le.
  - rewrite Hq. apply Qle_bool_iff.
  - rewrite Hq. apply Qle_bool_iff.
  - intros H4. rewrite Hp, H4. reflexivity.
  - intros H5. rewrite Hp, H5. reflexivity.
Qed.

End Stage23Properties.

(** The thresholds of [NewStockScreener] are the stricter ones, and a
    stock with five metrics at the acceptable cut point passes stage 2. *)
Lemma checkStage2Quality_threshold_witness :
  (0 <= MinYoYGrowth (criteria NewStockScreener))%Q /\
  (50 <= MinEPSGrowth (criteria NewStockScreener))%Q /\
  acceptable_count NewStockScreener
    (set_DebtRatio 70 (set_ROE 5 scenarioA)) = 5%nat /\
  fst (checkStage2Quality (fun _ _ => EmptyString) (fun _ => EmptyString)
         NewStockScreener (set_DebtRatio 70 (set_ROE 5 scenarioA))) = true.
Proof.
  assert (H1 : (0 <= MinYoYGrowth (criteria NewStockScreener))%Q)
    by (simpl; lra).
  assert (H2 : (50 <= MinEPSGrowth (criteria NewStockScreener))%Q)
    by (simpl; lra).
  split; [exact H1 | split; [exact H2 | split; [reflexivity |]]].
  apply (checkStage2Quality_threshold
           (fun _ _ => EmptyString) (fun _ => EmptyString)
           NewStockScreener (set_DebtRatio 70 (set_ROE 5 scenarioA)) H1 H2).
  reflexivity.
Defined.

(** ** Composite score *)

Section ScoreProperties.
Local Open Scope go_scope.

Lemma score_is_score_terms stock :
  Score (calculateScore stock) == score_terms stock.
Proof.
  unfold calculateScore, score_terms, fundamental_terms, zone_bonuses.
  cbn [Score set_Score].
  destruct (Price stock >? MA60 stock),
    ((KValue stock >=? 50) && (KValue stock <=? 80)),
    ((DValue stock >=? 50) && (DValue stock <=? 80)); ring.
Qed.

(** A term [min(x, 1) * w] never exceeds its weight [w]. *)
Lemma capped_term (x w : Q) : 0 <= w -> Qmin x 1 * w <= w.
Proof.
  intros Hw. pose proof (Q.le_min_r x 1) as Hmin.
  setoid_replace w with (1 * w) at 2 by ring.
  apply Qmult_le_compat_r; assumption.
Qed.

(** The six capped fundamental terms add up to at most 70; what is left
    is the debt-ratio term. *)
Lemma fundamental_terms_bound stock :
  fundamental_terms stock <= 70 + (1 - DebtRatio stock / 100) * 10.
Proof.
  unfold fundamental_terms.
  pose proof (capped_term (ROE stock / 30) 15).
  pose proof (capped_term (RevenueGrowth stock / 20) 10).
  pose proof (capped_term (YoYGrowth stock / 30) 15).
  pose proof (capped_term (EPSGrowth stock / 200) 20).
  pose proof (capped_term (EPS stock / 5) 5).
  pose proof (capped_term (inject_Z (DividendYears stock) / 10) 5).
  lra.
Qed.

Lemma zone_bonuses_bound stock : zone_bonuses stock <= 15.
Proof.
  unfold zone_bonuses.
  destruct ((50 <=? KValue stock) && (KValue stock <=? 80)),
    ((50 <=? DValue stock) && (DValue stock <=? 80)); lra.
Qed.

Lemma score_terms_bound stock :
  score_terms stock <= 100 + (1 - DebtRatio stock / 100) * 10.
Proof.
  unfold score_terms.
  pose proof (fundamental_terms_bound stock).
  pose proof (zone_bonuses_bound stock).
  destruct (Price stock >? MA60 stock); lra.
Qed.

Lemma debt_fraction (d : Q) : d / 100 == d * (1 # 100).
Proof. field. Qed.




(** The score without the price-above-average bonus. *)
Lemma score_with_bonus stock :
  Score (calculateScore stock) ==
  fundamental_terms stock + zone_bonuses stock +
  (if Price stock >? MA60 stock then 15 else 0).
Proof.
  rewrite score_is_score_terms. unfold score_terms. ring.
Qed.

(** C8, as the code computes it.  On scenario A stage 1 passes, stage 2
    passes with 7 of 7 checks, stage 3 passes with 3 of 3 checks, and the
    score is 10 + 7.5 + 12.5 + 15 + 3 + 8 + 3 + 15 + 8 + 7 = 89. *)
Theorem scenarioA_verdict (fmtFloat : nat -> Q -> string)
    (fmtInt : Z -> string) :
  checkStage1Fundamentals fmtFloat scenarioA = (true, []) /\
  stage2_checks fmtFloat fmtInt NewStockScreener scenarioA = (7%nat, []) /\
  checkStage2Quality fmtFloat fmtInt NewStockScreener scenarioA
    = (true, []) /\
  stage3_checks fmtFloat scenarioA = (3%nat, []) /\
  checkStage3Technical fmtFloat scenarioA = (true, []) /\
  Score (calculateScore scenarioA) == 89.
Proof.
  repeat split.
Qed.

(** C8, as the specification states it: the score of scenario A is not
    96. *)
Lemma scenarioA_score_not_96 :
  ~ (checkStage1Fundamentals (fun _ _ => EmptyString) scenarioA
       = (true, []) /\
     Score (calculateScore scenarioA) == 96).
Proof.
  intros [_ H]. vm_compute in H. discriminate H.
Qed.

End ScoreProperties.

(** ** Short price histories *)

Section ShortHistory.
Local Open Scope go_scope.

(** With fewer than 60 samples in one of the three slices
    [calculateTechnicalIndicators] returns at its first statement: the
    record is left as it was. *)
Lemma short_history_returns_early stock closes highs lows :
  (List.length closes < 60 \/ List.length highs < 60 \/
   List.length lows < 60)%nat ->
  calculateTechnicalIndicators stock closes highs lows = Some stock.
Proof.
  intros H. unfold calculateTechnicalIndicators.
  destruct (List.length closes <? 60)%nat eqn:Ec; [reflexivity|].
  destruct (List.length highs <? 60)%nat eqn:Eh; [reflexivity|].
  destruct (List.length lows <? 60)%nat eqn:El; [reflexivity|].
  apply Nat.ltb_ge in Ec, Eh, El. lia.
Qed.

(** C10.  [calculateScore] adds the 15 points of the price-above-average
    bonus whenever the price exceeds the stored average, also when the
    average is the 0 left by a history too short for
    [calculateTechnicalIndicators] to compute it: such a candidate with a
    positive price scores its other nine terms plus 15. *)
Theorem calculateScore_bonus_on_unset_MA60
    (stock : StockData) (closes highs lows : list Q) :
  (List.length closes < 60)%nat ->
  MA60 stock == 0 ->
  0 < Price stock ->
  exists stock' : StockData,
    calculateTechnicalIndicators stock closes highs lows = Some stock' /\
    MA60 stock' == 0 /\
    Score (calculateScore stock') ==
      fundamental_terms stock' + zone_bonuses stock' + 15.
Proof.
  intros Hlen Hma Hprice. exists stock.
  split; [|split].
  - apply short_history_returns_early. left. exact Hlen.
  - exact Hma.
  - rewrite score_with_bonus.
    assert (E : (Price stock >? MA60 stock) = true).
    { apply Qlt_bool_iff. rewrite Hma. exact Hprice. }
    rewrite E. reflexivity.
Qed.

(** Scenario A with its price kept and a nine-day history: the average
    stays 0 and the bonus is granted. *)
Lemma calculateScore_bonus_on_unset_MA60_witness :
  exists stock' : StockData,
    calculateTechnicalIndicators (set_MA60 0 scenarioA)
      closesC highsC lowsC = Some stock' /\
    MA60 stock' == 0 /\
    Score (calculateScore stock') ==
      fundamental_terms stock' + zone_bonuses stock' + 15.
Proof.
  apply (calculateScore_bonus_on_unset_MA60
           (set_MA60 0 scenarioA) closesC highsC lowsC).
  - simpl. lia.
  - reflexivity.
  - reflexivity.
Defined.

End ShortHistory.

(** ** The stochastic oscillator *)

Section KDProperties.
Local Open Scope go_scope.

(** The two updates of the inner loop are [max] and [min]. *)
Lemma running_max (highest h : Q) :
  (if h >? highest then h else highest) = Qmax highest h.
Proof.
  unfold Qlt_bool, Qle_bool, Qmax, GenericMinMax.gmax, Qcompare, Z.leb.
  rewrite (Z.compare_antisym (Qnum highest * QDen h) (Qnum h * QDen highest)).
  destruct (Qnum highest * QDen h ?= Qnum h * QDen highest)%Z; reflexivity.
Qed.

Lemma running_min (lowest l : Q) :
  (if l <? lowest then l else lowest) = Qmin lowest l.
Proof.
  unfold Qlt_bool, Qle_bool, Qmin, GenericMinMax.gmin, Qcompare, Z.leb.
  destruct (Qnum lowest * QDen l ?= Qnum l * QDen lowest)%Z; reflexivity.
Qed.

Lemma Qmax_same (x : Q) : Qmax x x = x.
Proof.
  unfold Qmax, GenericMinMax.gmax, Qcompare.
  rewrite Z.compare_refl. reflexivity.
Qed.

Lemma Qmin_same (x : Q) : Qmin x x = x.
Proof.
  unfold Qmin, GenericMinMax.gmin, Qcompare.
  rewrite Z.compare_refl. reflexivity.
Qed.

(** Slices and indices. *)
Lemma index_in_range (xs : list Q) (i : nat) :
  (i < List.length xs)%nat -> exists x, index xs i = Some x.
Proof.
  intros Hi. unfold index.
  destruct (nth_error xs i) as [x|] eqn:E.
  - exists x. reflexivity.
  - apply nth_error_None in E. lia.
Qed.

Lemma skipn_index (xs : list Q) (i : nat) (x : Q) :
  index xs i = Some x -> skipn i xs = x :: skipn (S i) xs.
Proof.
  unfold index. revert xs.
  induction i as [|i IH]; intros [|y ys] H; try discriminate.
  - injection H as ->. reflexivity.
  - simpl in H. rewrite skipn_cons. rewrite (IH ys H). reflexivity.
Qed.

(** The inner loop computes the maximum of the highs and the minimum of
    the lows it runs over. *)
Lemma iterate_window_step (highs lows : list Q) (k : nat) :
  forall (a : nat) (h l : Q),
    (a + k <= List.length highs)%nat ->
    (a + k <= List.length lows)%nat ->
    iterate (window_step highs lows) (seq a k) (h, l) =
    Some (fold_left Qmax (firstn k (skipn a highs)) h,
          fold_left Qmin (firstn k (skipn a lows)) l).
Proof.
  induction k as [|k IH]; intros a h l Hh Hl.
  - reflexivity.
  - destruct (index_in_range highs a) as [x Hx]; [lia|].
    destruct (index_in_range lows a) as [y Hy]; [lia|].
    cbn [seq iterate]. unfold window_step at 1.
    rewrite Hx, Hy. cbn [bind].
    rewrite running_max, running_min.
    rewrite IH by lia.
    rewrite (skipn_index highs a x Hx), (skipn_index lows a y Hy).
    reflexivity.
Qed.

(** The window loop of day [i], started as the source starts it. *)
Lemma window_loop (highs lows : list Q) (i : nat) (h0 l0 : Q) :
  (8 <= i)%nat ->
  (i < List.length highs)%nat -> (i < List.length lows)%nat ->
  index highs (i - 8) = Some h0 -> index lows (i - 8) = Some l0 ->
  for_range (i - 8) (i + 1) (window_step highs lows) (h0, l0) =
  Some (KDSpec.maximum (KDSpec.window highs i),
        KDSpec.minimum (KDSpec.window lows i)).
Proof.
  intros Hi Hh Hl Hh0 Hl0. unfold for_range.
  replace (i + 1 - (i - 8))%nat with 9%nat by lia.
  rewrite iterate_window_step by lia.
  unfold KDSpec.window.
  rewrite (skipn_index highs _ h0 Hh0), (skipn_index lows _ l0 Hl0).
  cbn [firstn KDSpec.maximum KDSpec.minimum fold_left].
  rewrite Qmax_same, Qmin_same. reflexivity.
Qed.

(** Two ways to write the same quotient. *)
Lemma rsv_formula (c lo hi : Q) :
  ~ hi == lo -> ((c - lo) / (hi - lo)) * 100 == 100 * (c - lo) / (hi - lo).
Proof. intros Hne. field. intros H. apply Hne. lra. Qed.

(** One turn of the outer loop appends the RSV of day [i]. *)
Lemma rsv_step_spec (closes highs lows : list Q) (i : nat) (rsvs : list Q) :
  (8 <= i)%nat -> (i < List.length closes)%nat ->
  (List.length closes <= List.length highs)%nat ->
  (List.length closes <= List.length lows)%nat ->
  exists r : Q,
    rsv_step closes highs lows i rsvs = Some (rsvs ++ [r]) /\
    r == KDSpec.RSV closes highs lows i.
Proof.
  intros Hi Hc Hh Hl.
  destruct (index_in_range highs (i - 8)) as [h0 Hh0]; [lia|].
  destruct (index_in_range lows (i - 8)) as [l0 Hl0]; [lia|].
  destruct (index_in_range closes i) as [c Hci]; [lia|].
  unfold rsv_step. rewrite Hh0, Hl0. cbn [bind].
  rewrite (window_loop highs lows i h0 l0) by (assumption || lia).
  cbn [bind]. unfold KDSpec.RSV.
  rewrite (nth_error_nth closes i 0 Hci).
  set (hi := KDSpec.maximum (KDSpec.window highs i)).
  set (lo := KDSpec.minimum (KDSpec.window lows i)).
  destruct (hi ==? lo) eqn:E; cbn [bind].
  - exists 50. split; reflexivity.
  - rewrite Hci. cbn [bind].
    exists (((c - lo) / (hi - lo)) * 100). split; [reflexivity|].
    apply rsv_formula. apply Qeq_bool_neq. exact E.
Qed.

(** The outer loop appends the RSV sequence of the days it runs over. *)
Lemma iterate_rsv_step (closes highs lows : list Q) (k : nat) :
  forall (a : nat) (acc : list Q),
    (8 <= a)%nat -> (a + k <= List.length closes)%nat ->
    (List.length closes <= List.length highs)%nat ->
    (List.length closes <= List.length lows)%nat ->
    exists rs : list Q,
      iterate (rsv_step closes highs lows) (seq a k) acc = Some (acc ++ rs) /\
      Forall2 Qeq rs (map (KDSpec.RSV closes highs lows) (seq a k)).
Proof.
  induction k as [|k IH]; intros a acc Ha Hk Hh Hl.
  - exists []. split; [cbn; rewrite app_nil_r; reflexivity | constructor].
  - destruct (rsv_step_spec closes highs lows a acc) as (r & Hr & Er);
      try lia.
    destruct (IH (S a) (acc ++ [r])) as (rs & Hrs & Ers); try lia.
    exists (r :: rs). split.
    + cbn [seq iterate]. rewrite Hr. cbn [bind]. rewrite Hrs.
      rewrite <- app_assoc. reflexivity.
    + cbn [seq map]. constructor; assumption.
Qed.

(** The smoothing loop and the recursion of the specification agree on
    equal inputs. *)
Lemma smooth_fold (rs rs' : list Q) :
  Forall2 Qeq rs rs' ->
  forall k d k' d' : Q,
    k == k' -> d == d' ->
    fst (fold_left smooth_step rs (k, d)) == fst (KDSpec.smooth k' d' rs') /\
    snd (fold_left smooth_step rs (k, d)) == snd (KDSpec.smooth k' d' rs').
Proof.
  induction 1 as [|r r' rs rs' Hr Hrs IH]; intros k d k' d' Hk Hd.
  - split; assumption.
  - cbn [fold_left KDSpec.smooth smooth_step]. apply IH.
    + rewrite Hk, Hr. reflexivity.
    + rewrite Hk, Hd, Hr. reflexivity.
Qed.

(** [calculateKDIndicator] returns, and what it returns is the pair the
    specification defines. *)
Lemma calculateKDIndicator_KD (closes highs lows : list Q) :
  (List.length closes <= List.length highs)%nat ->
  (List.length closes <= List.length lows)%nat ->
  exists kd : KDResult,
    calculateKDIndicator closes highs lows = Some kd /\
    K kd == fst (KDSpec.KD closes highs lows) /\
    D kd == snd (KDSpec.KD closes highs lows).
Proof.
  intros Hh Hl. unfold calculateKDIndicator, KDSpec.KD.
  destruct (List.length closes <? 9)%nat eqn:E9.
  - eexists. split; [reflexivity|]. split; reflexivity.
  - apply Nat.ltb_ge in E9.
    destruct (iterate_rsv_step closes highs lows
                (List.length closes - 8) 8 []) as (rs & Hrs & Ers);
      try lia.
    unfold for_range. rewrite Hrs. cbn [bind app].
    pose proof (Forall2_length Ers) as Hlen.
    rewrite length_map, length_seq in Hlen.
    destruct (List.length rs =? 0)%nat eqn:E0;
      [apply Nat.eqb_eq in E0; lia|].
    destruct (smooth_fold rs _ Ers 50 50 50 50) as [HK HD];
      try reflexivity.
    unfold KDSpec.RSVs.
    destruct (fold_left smooth_step rs (50, 50)) as [k d].
    eexists. split; [reflexivity|]. split; assumption.
Qed.

(** C2.  On three slices of equal length [calculateKDIndicator] returns.
    With at least 9 samples the result is the fold of
    [K_n = (2/3) K_(n-1) + (1/3) RSV_n], [D_n = (2/3) D_(n-1) + (1/3) K_n]
    from the seeds 50, 50 over the RSV sequence in chronological order,
    each RSV being [100 (close - min low) / (max high - min low)] on the
    trailing 9-sample window and 50 when the window's high equals its low;
    with fewer than 9 samples the result is K = D = 50. *)
Theorem calculateKDIndicator_recursion (closes highs lows : list Q) :
  List.length highs = List.length closes ->
  List.length lows = List.length closes ->
  exists kd : KDResult,
    calculateKDIndicator closes highs lows = Some kd /\
    ((9 <= List.length closes)%nat ->
     K kd == fst (KDSpec.smooth 50 50 (KDSpec.RSVs closes highs lows)) /\
     D kd == snd (KDSpec.smooth 50 50 (KDSpec.RSVs closes highs lows))) /\
    ((List.length closes < 9)%nat -> kd = {| K := 50; D := 50 |}).
Proof.
  intros Hh Hl.
  destruct (calculateKDIndicator_KD closes highs lows) as (kd & Hkd & HK & HD);
    try lia.
  exists kd. split; [exact Hkd|]. split.
  - intros H9. unfold KDSpec.KD in HK, HD.
    apply Nat.ltb_ge in H9. rewrite H9 in HK, HD. split; assumption.
  - intros H9. unfold calculateKDIndicator in Hkd.
    apply Nat.ltb_lt in H9. rewrite H9 in Hkd. congruence.
Qed.

(** On scenario C the recursion is applied once from the seeds. *)
Lemma calculateKDIndicator_recursion_witness :
  exists kd : KDResult,
    calculateKDIndicator closesC highsC lowsC = Some kd /\
    ((9 <= List.length closesC)%nat ->
     K kd == fst (KDSpec.smooth 50 50 (KDSpec.RSVs closesC highsC lowsC)) /\
     D kd == snd (KDSpec.smooth 50 50 (KDSpec.RSVs closesC highsC lowsC))) /\
    ((List.length closesC < 9)%nat -> kd = {| K := 50; D := 50 |}).
Proof.
  apply (calculateKDIndicator_recursion closesC highsC lowsC);
    reflexivity.
Defined.

(** *** Range of the oscillator *)

Lemma fold_max_start (rest : list Q) :
  forall x : Q, x <= fold_left Qmax rest x.
Proof.
  induction rest as [|z rest IH]; intros x; cbn [fold_left].
  - apply Qle_refl.
  - apply Qle_trans with (Qmax x z); [apply Q.le_max_l | apply IH].
Qed.

Lemma fold_max_member (rest : list Q) :
  forall x y : Q, In y rest -> y <= fold_left Qmax rest x.
Proof.
  induction rest as [|z rest IH]; intros x y Hin; [contradiction|].
  cbn [fold_left]. destruct Hin as [<- | Hin].
  - apply Qle_trans with (Qmax x z);
      [apply Q.le_max_r | apply fold_max_start].
  - apply IH, Hin.
Qed.

Lemma fold_min_start (rest : list Q) :
  forall x : Q, fold_left Qmin rest x <= x.
Proof.
  induction rest as [|z rest IH]; intros x; cbn [fold_left].
  - apply Qle_refl.
  - apply Qle_trans with (Qmin x z); [apply IH | apply Q.le_min_l].
Qed.

Lemma fold_min_member (rest : list Q) :
  forall x y : Q, In y rest -> fold_left Qmin rest x <= y.
Proof.
  induction rest as [|z rest IH]; intros x y Hin; [contradiction|].
  cbn [fold_left]. destruct Hin as [<- | Hin].
  - apply Qle_trans with (Qmin x z);
      [apply fold_min_start | apply Q.le_min_r].
  - apply IH, Hin.
Qed.

Lemma maximum_ge (xs : list Q) (y : Q) : In y xs -> y <= KDSpec.maximum xs.
Proof.
  destruct xs as [|x rest]; [contradiction|].
  intros [<- | Hin]; [apply fold_max_start | apply fold_max_member, Hin].
Qed.

Lemma minimum_le (xs : list Q) (y : Q) : In y xs -> KDSpec.minimum xs <= y.
Proof.
  destruct xs as [|x rest]; [contradiction|].
  intros [<- | Hin]; [apply fold_min_start | apply fold_min_member, Hin].
Qed.

(** Day [i] is the last day of its own window. *)
Lemma window_contains (xs : list Q) (i : nat) (x : Q) :
  (8 <= i)%nat -> index xs i = Some x -> In x (KDSpec.window xs i).
Proof.
  intros Hi Hx. apply (nth_error_In _ 8). unfold KDSpec.window.
  rewrite nth_error_firstn. cbn [Nat.ltb Nat.leb].
  rewrite nth_error_skipn.
  replace (i - 8 + 8)%nat with i by lia. exact Hx.
Qed.

Lemma in_0_100_eq (x y : Q) : x == y -> in_0_100 y -> in_0_100 x.
Proof. unfold in_0_100. intros E [H0 H1]. rewrite E. split; assumption. Qed.

(** When each close lies within its day's range, each RSV lies within
    [0, 100]. *)
Lemma RSV_range (closes highs lows : list Q) (i : nat) :
  (8 <= i)%nat -> (i < List.length closes)%nat ->
  (List.length closes <= List.length highs)%nat ->
  (List.length closes <= List.length lows)%nat ->
  close_within_day closes highs lows ->
  in_0_100 (KDSpec.RSV closes highs lows i).
Proof.
  intros Hi Hc Hh Hl Hday.
  destruct (index_in_range closes i) as [c Hci]; [lia|].
  destruct (index_in_range highs i) as [h Hhi]; [lia|].
  destruct (index_in_range lows i) as [l Hli]; [lia|].
  destruct (Hday i c h l Hci Hhi Hli) as [Hlc Hch].
  pose proof (maximum_ge _ _ (window_contains highs i h Hi Hhi)) as Hmax.
  pose proof (minimum_le _ _ (window_contains lows i l Hi Hli)) as Hmin.
  unfold KDSpec.RSV. rewrite (nth_error_nth closes i 0 Hci).
  set (hi := KDSpec.maximum (KDSpec.window highs i)) in *.
  set (lo := KDSpec.minimum (KDSpec.window lows i)) in *.
  destruct (Qeq_bool hi lo) eqn:E.
  - unfold in_0_100. lra.
  - apply Qeq_bool_neq in E.
    assert (Hpos : 0 < hi - lo).
    { destruct (Qlt_le_dec lo hi) as [Hlt | Hge]; [lra|].
      exfalso. apply E. lra. }
    split.
    + apply Qle_shift_div_l; [exact Hpos | lra].
    + apply Qle_shift_div_r; [exact Hpos | lra].
Qed.

Lemma RSVs_range (closes highs lows : list Q) :
  (List.length closes <= List.length highs)%nat ->
  (List.length closes <= List.length lows)%nat ->
  close_within_day closes highs lows ->
  Forall in_0_100 (KDSpec.RSVs closes highs lows).
Proof.
  intros Hh Hl Hday. unfold KDSpec.RSVs.
  apply Forall_map, Forall_forall. intros i Hin.
  apply in_seq in Hin. apply RSV_range; try assumption; lia.
Qed.

(** Each smoothing step is a convex combination. *)
Lemma smooth_range (rsvs : list Q) :
  Forall in_0_100 rsvs ->
  forall k d : Q,
    in_0_100 k -> in_0_100 d ->
    in_0_100 (fst (KDSpec.smooth k d rsvs)) /\
    in_0_100 (snd (KDSpec.smooth k d rsvs)).
Proof.
  induction 1 as [|rsv rsvs Hr Hrs IH]; intros k d Hk Hd.
  - split; assumption.
  - cbn [KDSpec.smooth]. cbv zeta.
    change (2 / 3) with (2 # 3). change (1 / 3) with (1 # 3).
    apply IH; unfold in_0_100 in *; split; lra.
Qed.

(** C5, as the code computes it.  For every valid PriceSeries with at
    least 9 samples in which each day's close lies between that day's low
    and high, [calculateKDIndicator] returns %K and %D within
    [0, 100]. *)
Theorem calculateKDIndicator_range (closes highs lows : list Q) :
  valid_PriceSeries closes highs lows ->
  (9 <= List.length closes)%nat ->
  close_within_day closes highs lows ->
  exists kd : KDResult,
    calculateKDIndicator closes highs lows = Some kd /\
    in_0_100 (K kd) /\ in_0_100 (D kd).
Proof.
  intros (Hh & Hl & _) H9 Hday.
  destruct (calculateKDIndicator_KD closes highs lows) as (kd & Hkd & HK & HD);
    try lia.
  exists kd. split; [exact Hkd|].
  assert (Hin : in_0_100 50) by (unfold in_0_100; lra).
  destruct (smooth_range _ (RSVs_range closes highs lows
                              ltac:(lia) ltac:(lia) Hday) 50 50 Hin Hin)
    as [HKr HDr].
  unfold KDSpec.KD in HK, HD.
  apply Nat.ltb_ge in H9. rewrite H9 in HK, HD.
  split; [exact (in_0_100_eq _ _ HK HKr) | exact (in_0_100_eq _ _ HD HDr)].
Qed.

Lemma scenarioC_valid : valid_PriceSeries closesC highsC lowsC.
Proof.
  unfold valid_PriceSeries, all_positive.
  repeat split; repeat constructor.
Qed.

Lemma scenarioC_within_day : close_within_day closesC highsC lowsC.
Proof.
  intros j c h l Hc Hh Hl.
  do 9 (destruct j as [|j];
        [cbn in Hc, Hh, Hl;
         injection Hc as <-; injection Hh as <-; injection Hl as <-;
         split; lra|]).
  destruct j; discriminate Hc.
Qed.

(** Scenario C is within range. *)
Lemma calculateKDIndicator_range_witness :
  exists kd : KDResult,
    calculateKDIndicator closesC highsC lowsC = Some kd /\
    in_0_100 (K kd) /\ in_0_100 (D kd).
Proof.
  apply (calculateKDIndicator_range closesC highsC lowsC).
  - exact scenarioC_valid.
  - simpl. lia.
  - exact scenarioC_within_day.
Defined.

Lemma seriesX_valid : valid_PriceSeries closesX highsX lowsX.
Proof.
  unfold valid_PriceSeries, all_positive.
  repeat split; repeat constructor.
Qed.

(** C5, as the specification states it: three equal-length sequences of
    positive reals, nine samples, and a %K of 350/3, above 100. *)
Lemma calculateKDIndicator_above_100 :
  ~ (valid_PriceSeries closesX highsX lowsX ->
     (9 <= List.length closesX)%nat ->
     exists kd : KDResult,
       calculateKDIndicator closesX highsX lowsX = Some kd /\
       in_0_100 (K kd) /\ in_0_100 (D kd)).
Proof.
  intros H.
  destruct (H seriesX_valid ltac:(simpl; lia)) as (kd & Hkd & [_ HK] & _).
  vm_compute in Hkd. injection Hkd as <-.
  vm_compute in HK. apply HK. reflexivity.
Qed.

(** C7, as the code computes it.  With at least 9 but fewer than 60
    samples [calculateTechnicalIndicators] returns at its first statement:
    no oscillator is computed, and %K, %D and the moving average keep the
    values the record had, 0 for a freshly allocated record. *)
Theorem calculateTechnicalIndicators_short_history
    (stock : StockData) (closes highs lows : list Q) :
  (9 <= List.length closes < 60)%nat ->
  calculateTechnicalIndicators stock closes highs lows = Some stock /\
  forall code : string,
    exists stock' : StockData,
      calculateTechnicalIndicators (zero_stock code) closes highs lows
        = Some stock' /\
      KValue stock' == 0 /\ DValue stock' == 0 /\ MA60 stock' == 0.
Proof.
  intros [_ H60]. split.
  - apply short_history_returns_early. left. exact H60.
  - intros code. exists (zero_stock code). split.
    + apply short_history_returns_early. left. exact H60.
    + repeat split.
Qed.

Lemma calculateTechnicalIndicators_short_history_witness :
  calculateTechnicalIndicators scenarioA closesC highsC lowsC
    = Some scenarioA.
Proof.
  apply (calculateTechnicalIndicators_short_history
           scenarioA closesC highsC lowsC).
  simpl. lia.
Defined.

(** C7, as the specification states it.  On the nine samples of scenario
    C the recursion gives K = 190/3 and D = 490/9, but the record
    [calculateTechnicalIndicators] returns does not hold them. *)
Lemma calculateTechnicalIndicators_no_oscillator :
  (9 <= List.length closesC < 60)%nat /\
  (exists kd : KDResult,
      calculateKDIndicator closesC highsC lowsC = Some kd /\
      K kd == 190 # 3 /\ D kd == 490 # 9) /\
  ~ (exists (stock' : StockData) (kd : KDResult),
        calculateTechnicalIndicators (zero_stock "2330")
          closesC highsC lowsC = Some stock' /\
        calculateKDIndicator closesC highsC lowsC = Some kd /\
        KValue stock' == K kd /\ DValue stock' == D kd /\
        MA60 stock' == 0).
Proof.
  split; [simpl; lia|]. split.
  - eexists. split; [vm_compute; reflexivity|]. split; reflexivity.
  - intros (stock' & kd & Hrun & Hkd & HK & _).
    vm_compute in Hrun. injection Hrun as <-.
    vm_compute in Hkd. injection Hkd as <-.
    vm_compute in HK. discriminate HK.
Qed.

End KDProperties.

(** ** Sorts that keep the promise of [sort.Slice] *)

Section SortProperties.
Context {A : Type}.
Variable past : A -> A -> bool.

Lemma insert_perm (x : A) (sorted : list A) :
  Permutation (x :: sorted) (insert past x sorted).
Proof.
  induction sorted as [|y rest IH]; cbn [insert].
  - apply Permutation_refl.
  - destruct (past x y).
    + apply perm_trans with (y :: x :: rest);
        [apply perm_swap | apply perm_skip, IH].
    + apply Permutation_refl.
Qed.

Lemma insertion_fold_perm (x : list A) :
  forall sorted : list A,
    Permutation (sorted ++ x)
      (fold_left (fun sorted a => insert past a sorted) x sorted).
Proof.
  induction x as [|a x IH]; intros sorted; cbn [fold_left].
  - rewrite app_nil_r. apply Permutation_refl.
  - apply perm_trans with (insert past a sorted ++ x); [|apply IH].
    apply perm_trans with ((a :: sorted) ++ x).
    + apply Permutation_sym, Permutation_middle.
    + apply Permutation_app_tail, insert_perm.
Qed.

Lemma insertion_sort_perm (x : list A) :
  Permutation x (insertion_sort past x).
Proof. apply (insertion_fold_perm x []). Qed.

Variable less : A -> A -> bool.
Hypothesis less_order : strict_weak_order less.
(** Going past [y] is allowed only when [x] is not less than [y];
    stopping in front of [y] only when [y] is not less than [x]. *)
Hypothesis past_sound : forall x y, past x y = true -> less x y = false.
Hypothesis stop_sound : forall x y, past x y = false -> less y x = false.

Lemma insert_sorted (x : A) (sorted : list A) :
  StronglySorted (fun a b => less b a = false) sorted ->
  StronglySorted (fun a b => less b a = false) (insert past x sorted).
Proof.
  induction 1 as [|y rest Hrest IH Hy]; cbn [insert].
  - repeat constructor.
  - destruct (past x y) eqn:E.
    + constructor; [exact IH|].
      apply Forall_forall. intros z Hz.
      apply (Permutation_in z (Permutation_sym (insert_perm x rest))) in Hz.
      destruct Hz as [<- | Hz].
      * apply past_sound, E.
      * rewrite Forall_forall in Hy. apply Hy, Hz.
    + constructor; [constructor; assumption|].
      constructor; [apply stop_sound, E|].
      apply Forall_forall. intros z Hz.
      rewrite Forall_forall in Hy. specialize (Hy z Hz).
      destruct less_order as [_ Htrans].
      apply (Htrans z y x Hy), stop_sound, E.
Qed.

Lemma insertion_sort_sorted (x : list A) :
  StronglySorted (fun a b => less b a = false) (insertion_sort past x).
Proof.
  unfold insertion_sort.
  assert (H : forall sorted,
             StronglySorted (fun a b => less b a = false) sorted ->
             StronglySorted (fun a b => less b a = false)
               (fold_left (fun sorted a => insert past a sorted) x sorted)).
  { induction x as [|a x IH]; intros sorted Hs; cbn [fold_left].
    - exact Hs.
    - apply IH, insert_sorted, Hs. }
  apply H. constructor.
Qed.

End SortProperties.

Lemma sort_keeping_ties_contract {A : Type} :
  sort_Slice_contract (@sort_keeping_ties A).
Proof.
  intros x less. split.
  - apply insertion_sort_perm.
  - intros Hless. apply insertion_sort_sorted.
    + exact Hless.
    + intros a b H. apply negb_true_iff in H. exact H.
    + intros a b H. apply negb_false_iff in H.
      destruct Hless as [Hasym _]. apply Hasym, H.
Qed.

(** ** Ranking pipeline *)

Section RankingProperties.
Local Open Scope go_scope.

Variable fmtFloat : nat -> Q -> string.
Variable fmtInt : Z -> string.
Variable FetchFinancialData : string -> option StockData.
Variable FetchTechnicalData : StockData -> option StockData.
Variable sort_Slice :
  list StockData -> (StockData -> StockData -> bool) -> list StockData.
Hypothesis sort_Slice_ok : sort_Slice_contract sort_Slice.

(** Only stage 1 decides. *)
Lemma meetsScreeningCriteria_stage1 s stock :
  meetsScreeningCriteria fmtFloat fmtInt s stock =
  passes_stage1 fmtFloat stock.
Proof.
  unfold meetsScreeningCriteria, passes_stage1.
  destruct (checkStage1Fundamentals fmtFloat stock) as [passed reasons].
  destruct passed; cbn [negb fst]; [|reflexivity].
  destruct (checkStage2Quality fmtFloat fmtInt s stock).
  destruct (checkStage3Technical fmtFloat stock). reflexivity.
Qed.

(** The loop keeps, scored and in input order, the candidates that pass
    stage 1. *)
Lemma screen_loop s (stocks : list string) :
  forall acc : list StockData,
    fold_left
      (screen_step fmtFloat fmtInt FetchFinancialData FetchTechnicalData s)
      stocks acc =
    acc ++ map calculateScore
             (filter (passes_stage1 fmtFloat)
                (fetched FetchFinancialData FetchTechnicalData stocks)).
Proof.
  induction stocks as [|code stocks IH]; intros acc.
  - cbn. rewrite app_nil_r. reflexivity.
  - cbn [fold_left]. rewrite IH.
    unfold fetched. cbn [flat_map].
    fold (fetched FetchFinancialData FetchTechnicalData stocks).
    unfold screen_step, fetch.
    destruct (FetchFinancialData code) as [stock|]; [|reflexivity].
    destruct (FetchTechnicalData stock) as [stock'|]; [|reflexivity].
    rewrite meetsScreeningCriteria_stage1. cbn [app filter].
    destruct (passes_stage1 fmtFloat stock'); [|reflexivity].
    cbn [map]. rewrite <- app_assoc. reflexivity.
Qed.

Lemma qualified_survivors s stocks :
  qualified fmtFloat fmtInt FetchFinancialData FetchTechnicalData s stocks =
  map calculateScore
    (filter (passes_stage1 fmtFloat)
       (fetched FetchFinancialData FetchTechnicalData stocks)).
Proof. apply (screen_loop s stocks []). Qed.

(** Scoring leaves the figures stage 1 reads untouched. *)
Lemma stage1_calculateScore stock :
  passes_stage1 fmtFloat (calculateScore stock) =
  passes_stage1 fmtFloat stock.
Proof. reflexivity. Qed.

Lemma ScreenStocks_perm s stocks :
  Permutation
    (qualified fmtFloat fmtInt FetchFinancialData FetchTechnicalData
       s stocks)
    (ScreenStocks fmtFloat fmtInt FetchFinancialData FetchTechnicalData
       sort_Slice s stocks).
Proof. apply sort_Slice_ok. Qed.

(** C1.  Stage 1 alone decides: [meetsScreeningCriteria] is the boolean
    of [checkStage1Fundamentals] whatever stages 2 and 3 return, the list
    [ScreenStocks] returns is a rearrangement of the scored candidates
    that pass stage 1, and a processed candidate is in that list exactly
    when stage 1 passes. *)
Theorem ScreenStocks_membership (s : StockScreener) (stocks : list string) :
  (forall stock : StockData,
      meetsScreeningCriteria fmtFloat fmtInt s stock =
      fst (checkStage1Fundamentals fmtFloat stock)) /\
  Permutation
    (map calculateScore
       (filter (fun stock => fst (checkStage1Fundamentals fmtFloat stock))
          (fetched FetchFinancialData FetchTechnicalData stocks)))
    (ScreenStocks fmtFloat fmtInt FetchFinancialData FetchTechnicalData
       sort_Slice s stocks) /\
  (forall stock : StockData,
      In stock (fetched FetchFinancialData FetchTechnicalData stocks) ->
      (In (calculateScore stock)
          (ScreenStocks fmtFloat fmtInt FetchFinancialData
             FetchTechnicalData sort_Slice s stocks) <->
       fst (checkStage1Fundamentals fmtFloat stock) = true)).
Proof.
  pose proof (ScreenStocks_perm s stocks) as Hperm.
  rewrite qualified_survivors in Hperm.
  split; [|split].
  - apply meetsScreeningCriteria_stage1.
  - exact Hperm.
  - intros stock Hin. split.
    + intros Hout.
      apply (Permutation_in _ (Permutation_sym Hperm)) in Hout.
      apply in_map_iff in Hout. destruct Hout as (stock' & Heq & Hin').
      apply filter_In in Hin'. destruct Hin' as [_ Hpass].
      change (passes_stage1 fmtFloat stock = true).
      rewrite <- (stage1_calculateScore stock), <- Heq.
      rewrite stage1_calculateScore. exact Hpass.
    + intros Hpass. apply (Permutation_in _ Hperm).
      apply in_map, filter_In. split; assumption.
Qed.

Lemma by_score_order : strict_weak_order by_score.
Proof.
  unfold by_score. split.
  - intros a b H. apply Qlt_bool_iff in H. apply Qlt_bool_false_iff.
    apply Qlt_le_weak, H.
  - intros a b c Hab Hbc.
    apply Qlt_bool_false_iff in Hab, Hbc. apply Qlt_bool_false_iff.
    apply Qle_trans with (Score b); assumption.
Qed.

(** C9, as the code guarantees it.  The list [ScreenStocks] returns is
    sorted by composite score in descending order and is a rearrangement
    of the surviving candidates; the order among equal scores is the one
    [sort.Slice] happens to produce. *)
Theorem ScreenStocks_descending (s : StockScreener) (stocks : list string) :
  descending_by_score
    (ScreenStocks fmtFloat fmtInt FetchFinancialData FetchTechnicalData
       sort_Slice s stocks) /\
  Permutation
    (qualified fmtFloat fmtInt FetchFinancialData FetchTechnicalData
       s stocks)
    (ScreenStocks fmtFloat fmtInt FetchFinancialData FetchTechnicalData
       sort_Slice s stocks).
Proof.
  split; [|apply ScreenStocks_perm].
  unfold descending_by_score, ScreenStocks.
  destruct (sort_Slice_ok
              (qualified fmtFloat fmtInt FetchFinancialData
                 FetchTechnicalData s stocks) by_score) as [_ Hsorted].
  specialize (Hsorted by_score_order).
  induction Hsorted as [|a rest Hrest IH Ha]; constructor.
  - exact IH.
  - apply Forall_forall. intros b Hb. rewrite Forall_forall in Ha.
    apply Qlt_bool_false_iff. exact (Ha b Hb).
Qed.

End RankingProperties.

(** The two stocks of [FetchStockList], both with the figures of scenario
    A, under a sort that keeps the promise of [sort.Slice]. *)
Lemma ScreenStocks_membership_witness :
  In stock2330
    (fetched fetch_scenarioA fetch_technical_scenarioA stockList) /\
  (In (calculateScore stock2330)
      (ScreenStocks (fun _ _ => EmptyString) (fun _ => EmptyString)
         fetch_scenarioA fetch_technical_scenarioA
         sort_keeping_ties NewStockScreener stockList) <->
   fst (checkStage1Fundamentals (fun _ _ => EmptyString) stock2330) = true).
Proof.
  assert (Hin : In stock2330
                  (fetched fetch_scenarioA fetch_technical_scenarioA
                     stockList))
    by (right; left; reflexivity).
  split; [exact Hin|].
  exact (proj2 (proj2
           (ScreenStocks_membership
              (fun _ _ => EmptyString) (fun _ => EmptyString)
              fetch_scenarioA fetch_technical_scenarioA
              sort_keeping_ties sort_keeping_ties_contract
              NewStockScreener stockList)) stock2330 Hin).
Defined.

(** Three stocks whose scores, 84, 89 and 86.5, are not in descending
    order on input.  The list comes out as 2330, 3379, 2328; it is the
    list the library's [sort.Slice], an insertion sort on so short a
    slice, leaves. *)
Lemma ScreenStocks_descending_witness :
  map Code
    (ScreenStocks (fun _ _ => EmptyString) (fun _ => EmptyString)
       (fetch_with_ROE three_stocks) fetch_technical_scenarioA
       sort_keeping_ties NewStockScreener (map fst three_stocks))
  = ["2330"; "3379"; "2328"]%string /\
  GoSort.Slice by_score
    (qualified (fun _ _ => EmptyString) (fun _ => EmptyString)
       (fetch_with_ROE three_stocks) fetch_technical_scenarioA
       NewStockScreener (map fst three_stocks))
  = Some
      (ScreenStocks (fun _ _ => EmptyString) (fun _ => EmptyString)
         (fetch_with_ROE three_stocks) fetch_technical_scenarioA
         sort_keeping_ties NewStockScreener (map fst three_stocks)) /\
  descending_by_score
    (ScreenStocks (fun _ _ => EmptyString) (fun _ => EmptyString)
       (fetch_with_ROE three_stocks) fetch_technical_scenarioA
       sort_keeping_ties NewStockScreener (map fst three_stocks)).
Proof.
  split; [vm_compute; reflexivity|].
  split; [vm_compute; reflexivity|].
  exact (proj1
           (ScreenStocks_descending
              (fun _ _ => EmptyString) (fun _ => EmptyString)
              (fetch_with_ROE three_stocks) fetch_technical_scenarioA
              sort_keeping_ties sort_keeping_ties_contract
              NewStockScreener (map fst three_stocks))).
Defined.

(** C9, as the specification states it.  Thirteen stocks survive, the
    first with a score of 84, the twelve others tied at 89.  The library's
    [sort.Slice] takes the element in the middle of the slice, 2884, as
    pivot and moves it to the front: the slice comes out with 2884 ahead
    of the five tied stocks that preceded it on input.  No sort that runs
    as [sort.Slice] does keeps the ties in input order here. *)
Lemma ScreenStocks_ties_not_kept :
  option_map (map Code)
    (GoSort.Slice by_score
       (qualified (fun _ _ => EmptyString) (fun _ => EmptyString)
          (fetch_with_ROE thirteen_stocks) fetch_technical_scenarioA
          NewStockScreener (map fst thirteen_stocks)))
  = Some ["2884"; "2330"; "3379"; "2454"; "2308"; "2886"; "2382"; "3231";
          "2376"; "2449"; "1216"; "2412"; "2328"]%string /\
  ~ (exists sort_Slice :
       list StockData -> (StockData -> StockData -> bool) -> list StockData,
       runs_as_Slice sort_Slice /\
       ties_in_input_order
         (qualified (fun _ _ => EmptyString) (fun _ => EmptyString)
            (fetch_with_ROE thirteen_stocks) fetch_technical_scenarioA
            NewStockScreener (map fst thirteen_stocks))
         (ScreenStocks (fun _ _ => EmptyString) (fun _ => EmptyString)
            (fetch_with_ROE thirteen_stocks) fetch_technical_scenarioA
            sort_Slice NewStockScreener (map fst thirteen_stocks))).
Proof.
  split; [vm_compute; reflexivity|].
  intros (sort_Slice & Hruns & Hties).
  specialize (Hties 89). unfold ScreenStocks in Hties.
  destruct (GoSort.Slice by_score
              (qualified (fun _ _ => EmptyString) (fun _ => EmptyString)
                 (fetch_with_ROE thirteen_stocks) fetch_technical_scenarioA
                 NewStockScreener (map fst thirteen_stocks)))
    as [out|] eqn:Eout; [|vm_compute in Eout; discriminate Eout].
  rewrite (Hruns _ _ out Eout) in Hties.
  vm_compute in Eout. injection Eout as <-.
  vm_compute in Hties. discriminate Hties.
Qed.

(** * Further properties *)

(** ** Panics of the indicator calculator *)

Section IndicatorPanics.
Local Open Scope go_scope.

(** A loop whose body panics at one of its counters panics. *)
Lemma iterate_stuck {S : Type} (body : nat -> S -> option S)
    (counters : list nat) (i : nat) :
  In i counters -> (forall s, body i s = None) ->
  forall s, iterate body counters s = None.
Proof.
  intros Hin Hstuck.
  induction counters as [|a rest IH]; intros s; [contradiction|].
  cbn [iterate]. destruct Hin as [-> | Hin].
  - rewrite Hstuck. reflexivity.
  - destruct (body a s) as [s'|]; cbn [bind]; [apply IH, Hin | reflexivity].
Qed.

Lemma index_out_of_range (xs : list Q) (i : nat) :
  (List.length xs <= i)%nat -> index xs i = None.
Proof. intros H. apply nth_error_None, H. Qed.

Lemma window_step_stuck (highs lows : list Q) (j : nat) :
  (List.length highs <= j \/ List.length lows <= j)%nat ->
  forall hl, window_step highs lows j hl = None.
Proof.
  intros H [h l]. unfold window_step.
  destruct (index highs j) as [x|] eqn:Ex; cbn [bind]; [|reflexivity].
  destruct H as [H | H].
  - rewrite (index_out_of_range highs j H) in Ex. discriminate.
  - rewrite (index_out_of_range lows j H). reflexivity.
Qed.

Lemma rsv_step_stuck (closes highs lows : list Q) (i : nat) :
  (List.length highs <= i \/ List.length lows <= i)%nat ->
  forall rsvs, rsv_step closes highs lows i rsvs = None.
Proof.
  intros H rsvs. unfold rsv_step.
  destruct (index highs (i - 8)); cbn [bind]; [|reflexivity].
  destruct (index lows (i - 8)); cbn [bind]; [|reflexivity].
  unfold for_range.
  rewrite (iterate_stuck (window_step highs lows) _ i).
  - reflexivity.
  - apply in_seq. lia.
  - apply window_step_stuck, H.
Qed.

Lemma calculateKDIndicator_short_slices (closes highs lows : list Q) :
  (9 <= List.length closes)%nat ->
  (List.length highs < List.length closes \/
   List.length lows < List.length closes)%nat ->
  calculateKDIndicator closes highs lows = None.
Proof.
  intros H9 Hshort. unfold calculateKDIndicator.
  apply Nat.ltb_ge in H9. rewrite H9. apply Nat.ltb_ge in H9.
  unfold for_range.
  set (short := Nat.min (List.length highs) (List.length lows)).
  rewrite (iterate_stuck (rsv_step closes highs lows) _ (Nat.max 8 short)).
  - reflexivity.
  - apply in_seq. unfold short. lia.
  - apply rsv_step_stuck. unfold short. lia.
Qed.

(** X1.  [calculateKDIndicator] panics with an index out of range exactly
    when [closes] has at least 9 samples and [highs] or [lows] is shorter
    than [closes]; in every other case it returns a result. *)
Theorem calculateKDIndicator_panics_iff (closes highs lows : list Q) :
  calculateKDIndicator closes highs lows = None <->
  (9 <= List.length closes)%nat /\
  (List.length highs < List.length closes \/
   List.length lows < List.length closes)%nat.
Proof.
  split.
  - intros Hnone.
    destruct (Nat.lt_ge_cases (List.length closes) 9) as [H9 | H9].
    + unfold calculateKDIndicator in Hnone.
      apply Nat.ltb_lt in H9. rewrite H9 in Hnone. discriminate.
    + split; [exact H9|].
      destruct (Nat.lt_ge_cases (List.length highs) (List.length closes))
        as [Hh | Hh]; [left; exact Hh|].
      destruct (Nat.lt_ge_cases (List.length lows) (List.length closes))
        as [Hl | Hl]; [right; exact Hl|].
      destruct (calculateKDIndicator_KD closes highs lows Hh Hl)
        as (kd & Hkd & _).
      congruence.
  - intros [H9 Hshort].
    apply calculateKDIndicator_short_slices; assumption.
Qed.

End IndicatorPanics.

(** ** The indicator calculator on long histories *)

Section LongHistory.
Local Open Scope go_scope.

(** The summing loop adds up the closes it runs over. *)
Lemma iterate_sum (closes : list Q) (k : nat) :
  forall (a : nat) (sum : Q),
    (a + k <= List.length closes)%nat ->
    iterate (fun i sum => c <- index closes i ;; Some (sum + c))
      (seq a k) sum =
    Some (fold_left Qplus (firstn k (skipn a closes)) sum).
Proof.
  induction k as [|k IH]; intros a sum Hk.
  - reflexivity.
  - destruct (index_in_range closes a) as [c Hc]; [lia|].
    cbn [seq iterate]. rewrite Hc. cbn [bind].
    rewrite IH by lia. rewrite (skipn_index closes a c Hc). reflexivity.
Qed.

(** What the function stores when all three slices have 60 entries and
    [closes] is the shortest. *)
Lemma calculateTechnicalIndicators_long stock closes highs lows :
  (60 <= List.length closes)%nat ->
  covers_closes closes highs lows ->
  exists kd : KDResult,
    calculateKDIndicator closes highs lows = Some kd /\
    calculateTechnicalIndicators stock closes highs lows =
    Some (set_AvgVolume 0
            (set_DValue (D kd)
               (set_KValue (K kd)
                  (set_MA60 (trailing_mean_60 closes) stock)))).
Proof.
  intros H60 [Hh Hl].
  destruct (calculateKDIndicator_KD closes highs lows Hh Hl)
    as (kd & Hkd & _).
  exists kd. split; [exact Hkd|].
  unfold calculateTechnicalIndicators.
  assert (Ec : (List.length closes <? 60)%nat = false)
    by (apply Nat.ltb_ge; lia).
  assert (Eh : (List.length highs <? 60)%nat = false)
    by (apply Nat.ltb_ge; lia).
  assert (El : (List.length lows <? 60)%nat = false)
    by (apply Nat.ltb_ge; lia).
  rewrite Ec, Eh, El. cbn [orb]. cbv zeta.
  assert (Ehc : (List.length highs <? List.length closes)%nat = false)
    by (apply Nat.ltb_ge; lia).
  assert (Elc : (List.length lows <? List.length closes)%nat = false)
    by (apply Nat.ltb_ge; lia).
  rewrite Ehc, Elc.
  assert (E60 : (60 <=? List.length closes)%nat = true)
    by (apply Nat.leb_le; lia).
  assert (E9 : (9 <=? List.length closes)%nat = true)
    by (apply Nat.leb_le; lia).
  rewrite E60, E9. unfold for_range.
  replace (List.length closes - (List.length closes - 60))%nat
    with 60%nat by lia.
  rewrite iterate_sum by lia. cbn [bind]. rewrite Hkd. cbn [bind].
  unfold trailing_mean_60.
  rewrite firstn_all2 by (rewrite length_skipn; lia).
  reflexivity.
Qed.

(** X2.  When each slice has at least 60 entries and neither [highs] nor
    [lows] is shorter than [closes], [calculateTechnicalIndicators]
    returns; it stores the arithmetic mean of the last 60 closes as MA60,
    the pair of [calculateKDIndicator] as %K and %D, sets the average
    volume to 0 and leaves the fundamental figures, the price and the
    score untouched. *)
Theorem calculateTechnicalIndicators_stores
    (stock : StockData) (closes highs lows : list Q) :
  (60 <= List.length closes)%nat ->
  covers_closes closes highs lows ->
  exists (stock' : StockData) (kd : KDResult),
    calculateTechnicalIndicators stock closes highs lows = Some stock' /\
    calculateKDIndicator closes highs lows = Some kd /\
    MA60 stock' = trailing_mean_60 closes /\
    KValue stock' = K kd /\ DValue stock' = D kd /\
    AvgVolume stock' = 0%Z /\
    set_AvgVolume (AvgVolume stock)
      (set_DValue (DValue stock)
         (set_KValue (KValue stock) (set_MA60 (MA60 stock) stock'))) =
    stock.
Proof.
  intros H60 Hcov.
  destruct (calculateTechnicalIndicators_long stock closes highs lows
              H60 Hcov) as (kd & Hkd & Hrun).
  eexists. exists kd. split; [exact Hrun|]. split; [exact Hkd|].
  destruct stock. repeat split.
Qed.

Lemma calculateTechnicalIndicators_stores_witness :
  exists (stock' : StockData) (kd : KDResult),
    calculateTechnicalIndicators scenarioA flat60 flat60 flat60
      = Some stock' /\
    calculateKDIndicator flat60 flat60 flat60 = Some kd /\
    MA60 stock' = trailing_mean_60 flat60 /\
    KValue stock' = K kd /\ DValue stock' = D kd /\
    AvgVolume stock' = 0%Z /\
    set_AvgVolume (AvgVolume scenarioA)
      (set_DValue (DValue scenarioA)
         (set_KValue (KValue scenarioA)
            (set_MA60 (MA60 scenarioA) stock'))) =
    scenarioA.
Proof.
  apply (calculateTechnicalIndicators_stores scenarioA flat60 flat60 flat60).
  - cbn. lia.
  - split; cbn; lia.
Defined.

Lemma calculateTechnicalIndicators_misaligned
    (stock : StockData) (closes highs lows : list Q) :
  (60 <= List.length closes /\ 60 <= List.length highs /\
   60 <= List.length lows)%nat ->
  (List.length highs < List.length closes \/
   List.length lows < List.length closes)%nat ->
  calculateTechnicalIndicators stock closes highs lows = None.
Proof.
  intros (Hc & Hh & Hl) Hshort.
  unfold calculateTechnicalIndicators.
  assert (Ec : (List.length closes <? 60)%nat = false)
    by (apply Nat.ltb_ge; lia).
  assert (Eh : (List.length highs <? 60)%nat = false)
    by (apply Nat.ltb_ge; lia).
  assert (El : (List.length lows <? 60)%nat = false)
    by (apply Nat.ltb_ge; lia).
  rewrite Ec, Eh, El. cbn [orb]. cbv zeta.
  set (minLen :=
         if (List.length lows <?
             (if (List.length highs <? List.length closes)%nat
              then List.length highs else List.length closes))%nat
         then List.length lows
         else if (List.length highs <? List.length closes)%nat
              then List.length highs else List.length closes).
  assert (Hmin : (60 <= minLen <= List.length closes)%nat).
  { unfold minLen.
    destruct (List.length highs <? List.length closes)%nat eqn:E1;
      [apply Nat.ltb_lt in E1 | apply Nat.ltb_ge in E1].
    - destruct (List.length lows <? List.length highs)%nat eqn:E2;
        [apply Nat.ltb_lt in E2 | apply Nat.ltb_ge in E2]; lia.
    - destruct (List.length lows <? List.length closes)%nat eqn:E2;
        [apply Nat.ltb_lt in E2 | apply Nat.ltb_ge in E2]; lia. }
  assert (E60 : (60 <=? minLen)%nat = true) by (apply Nat.leb_le; lia).
  assert (E9 : (9 <=? minLen)%nat = true) by (apply Nat.leb_le; lia).
  rewrite E60, E9. unfold for_range.
  rewrite iterate_sum by lia. cbn [bind].
  rewrite calculateKDIndicator_short_slices by (assumption || lia).
  reflexivity.
Qed.

(** X3.  [calculateTechnicalIndicators] panics exactly when each slice has
    at least 60 entries and [highs] or [lows] is shorter than [closes]:
    the length it computes as the shortest of the three is used for the
    moving average only, not for the oscillator. *)
Theorem calculateTechnicalIndicators_panics_iff
    (stock : StockData) (closes highs lows : list Q) :
  calculateTechnicalIndicators stock closes highs lows = None <->
  (60 <= List.length closes /\ 60 <= List.length highs /\
   60 <= List.length lows)%nat /\
  (List.length highs < List.length closes \/
   List.length lows < List.length closes)%nat.
Proof.
  split.
  - intros Hnone.
    destruct (Nat.lt_ge_cases (List.length closes) 60) as [Hc | Hc].
    { rewrite short_history_returns_early in Hnone by (left; exact Hc).
      discriminate. }
    destruct (Nat.lt_ge_cases (List.length highs) 60) as [Hh | Hh].
    { rewrite short_history_returns_early in Hnone
        by (right; left; exact Hh).
      discriminate. }
    destruct (Nat.lt_ge_cases (List.length lows) 60) as [Hl | Hl].
    { rewrite short_history_returns_early in Hnone
        by (right; right; exact Hl).
      discriminate. }
    split; [lia|].
    destruct (Nat.lt_ge_cases (List.length highs) (List.length closes))
      as [Hhc | Hhc]; [left; exact Hhc|].
    destruct (Nat.lt_ge_cases (List.length lows) (List.length closes))
      as [Hlc | Hlc]; [right; exact Hlc|].
    destruct (calculateTechnicalIndicators_long stock closes highs lows
                Hc (conj Hhc Hlc)) as (kd & _ & Hrun).
    congruence.
  - intros [Hlen Hshort].
    apply calculateTechnicalIndicators_misaligned; assumption.
Qed.

End LongHistory.

(** ** The oscillator on a flat range *)

Section FlatRange.
Local Open Scope go_scope.

Lemma Qmax_cases (a b : Q) : Qmax a b = a \/ Qmax a b = b.
Proof.
  unfold Qmax, GenericMinMax.gmax. destruct (Qcompare a b); auto.
Qed.

Lemma Qmin_cases (a b : Q) : Qmin a b = a \/ Qmin a b = b.
Proof.
  unfold Qmin, GenericMinMax.gmin. destruct (Qcompare a b); auto.
Qed.

Lemma fold_max_in (rest : list Q) :
  forall x : Q, In (fold_left Qmax rest x) (x :: rest).
Proof.
  induction rest as [|z rest IH]; intros x; cbn [fold_left].
  - left. reflexivity.
  - destruct (IH (Qmax x z)) as [H | H].
    + rewrite <- H. destruct (Qmax_cases x z) as [-> | ->];
        [left | right; left]; reflexivity.
    + right. right. exact H.
Qed.

Lemma fold_min_in (rest : list Q) :
  forall x : Q, In (fold_left Qmin rest x) (x :: rest).
Proof.
  induction rest as [|z rest IH]; intros x; cbn [fold_left].
  - left. reflexivity.
  - destruct (IH (Qmin x z)) as [H | H].
    + rewrite <- H. destruct (Qmin_cases x z) as [-> | ->];
        [left | right; left]; reflexivity.
    + right. right. exact H.
Qed.

Lemma in_window (xs : list Q) (i : nat) (x : Q) :
  In x (KDSpec.window xs i) -> In x xs.
Proof.
  unfold KDSpec.window. intros H.
  rewrite <- (firstn_skipn (i - 8) xs). apply in_or_app. right.
  rewrite <- (firstn_skipn 9 (skipn (i - 8) xs)).
  apply in_or_app. left. exact H.
Qed.

Lemma window_flat (xs : list Q) (i : nat) (v : Q) :
  (8 <= i < List.length xs)%nat ->
  Forall (fun x => x == v) xs ->
  KDSpec.maximum (KDSpec.window xs i) == v /\
  KDSpec.minimum (KDSpec.window xs i) == v.
Proof.
  intros Hi Hflat. rewrite Forall_forall in Hflat.
  destruct (index_in_range xs i) as [x Hx]; [lia|].
  pose proof (window_contains xs i x ltac:(lia) Hx) as Hin.
  destruct (KDSpec.window xs i) as [|w rest] eqn:Ew; [contradiction|].
  cbn [KDSpec.maximum KDSpec.minimum]. split; apply Hflat.
  - apply (in_window xs i). rewrite Ew. apply fold_max_in.
  - apply (in_window xs i). rewrite Ew. apply fold_min_in.
Qed.

(** On a window of zero range the outer loop appends the neutral 50,
    without reading the close. *)
Lemma rsv_step_zero_range (closes highs lows : list Q) (v : Q) (i : nat)
    (rsvs : list Q) :
  (8 <= i)%nat ->
  (i < List.length highs)%nat -> (i < List.length lows)%nat ->
  Forall (fun h => h == v) highs ->
  Forall (fun l => l == v) lows ->
  rsv_step closes highs lows i rsvs = Some (rsvs ++ [50]).
Proof.
  intros Hi Hh Hl Hhighs Hlows.
  destruct (index_in_range highs (i - 8)) as [h0 Hh0]; [lia|].
  destruct (index_in_range lows (i - 8)) as [l0 Hl0]; [lia|].
  unfold rsv_step. rewrite Hh0, Hl0. cbn [bind].
  rewrite (window_loop highs lows i h0 l0) by (assumption || lia).
  cbn [bind].
  destruct (window_flat highs i v ltac:(lia) Hhighs) as [Hmax _].
  destruct (window_flat lows i v ltac:(lia) Hlows) as [_ Hmin].
  assert (E : (KDSpec.maximum (KDSpec.window highs i)
               ==? KDSpec.minimum (KDSpec.window lows i)) = true).
  { apply Qeq_bool_iff. rewrite Hmax, Hmin. reflexivity. }
  rewrite E. reflexivity.
Qed.

Lemma iterate_rsv_step_zero_range (closes highs lows : list Q) (v : Q)
    (k : nat) :
  forall (a : nat) (acc : list Q),
    (8 <= a)%nat ->
    (a + k <= List.length highs)%nat -> (a + k <= List.length lows)%nat ->
    Forall (fun h => h == v) highs ->
    Forall (fun l => l == v) lows ->
    iterate (rsv_step closes highs lows) (seq a k) acc =
    Some (acc ++ repeat 50 k).
Proof.
  induction k as [|k IH]; intros a acc Ha Hh Hl Hhighs Hlows.
  - cbn. rewrite app_nil_r. reflexivity.
  - cbn [seq iterate].
    rewrite (rsv_step_zero_range closes highs lows v a acc)
      by (assumption || lia).
    cbn [bind]. rewrite IH by (assumption || lia).
    rewrite <- app_assoc. reflexivity.
Qed.

(** What the function returns on a series of zero range depends on the
    number of closes only. *)
Lemma calculateKDIndicator_of_length (closes highs lows : list Q) (v : Q) :
  covers_closes closes highs lows ->
  Forall (fun h => h == v) highs ->
  Forall (fun l => l == v) lows ->
  calculateKDIndicator closes highs lows =
  if (List.length closes <? 9)%nat then Some {| K := 50; D := 50 |}
  else
    let rsvs := repeat 50 (List.length closes - 8) in
    if (List.length rsvs =? 0)%nat then Some {| K := 50; D := 50 |}
    else
      let '(k, d) := fold_left smooth_step rsvs (50, 50) in
      Some {| K := k; D := d |}.
Proof.
  intros [Hh Hl] Hhighs Hlows. unfold calculateKDIndicator.
  destruct (List.length closes <? 9)%nat eqn:E9; [reflexivity|].
  apply Nat.ltb_ge in E9. unfold for_range.
  rewrite (iterate_rsv_step_zero_range closes highs lows v)
    by (assumption || lia).
  reflexivity.
Qed.

(** X5.  When every high and every low of the series equals one value,
    every window has zero range: [calculateKDIndicator] returns, and its
    result does not depend on the closes.  Any other series of as many
    closes gives the same %K and %D. *)
Theorem calculateKDIndicator_zero_range
    (closes closes' highs lows : list Q) (v : Q) :
  covers_closes closes highs lows ->
  Forall (fun h => h == v) highs ->
  Forall (fun l => l == v) lows ->
  List.length closes' = List.length closes ->
  exists kd : KDResult,
    calculateKDIndicator closes highs lows = Some kd /\
    calculateKDIndicator closes' highs lows = Some kd.
Proof.
  intros Hcov Hhighs Hlows Hlen.
  assert (Hcov' : covers_closes closes' highs lows).
  { destruct Hcov as [Hh Hl]. split; rewrite Hlen; assumption. }
  rewrite (calculateKDIndicator_of_length closes highs lows v)
    by assumption.
  rewrite (calculateKDIndicator_of_length closes' highs lows v)
    by assumption.
  rewrite Hlen.
  destruct (List.length closes <? 9)%nat; [eexists; split; reflexivity|].
  cbv zeta.
  destruct (Nat.eqb (List.length (repeat 50 (List.length closes - 8))) 0);
    [eexists; split; reflexivity|].
  destruct (fold_left smooth_step _ (50, 50)) as [k d].
  eexists; split; reflexivity.
Qed.

Lemma flat60_all_10 : Forall (fun x => x == 10) flat60.
Proof.
  apply Forall_forall. intros x Hx.
  apply repeat_spec in Hx. rewrite Hx. reflexivity.
Qed.

(** The rising closes of scenario C and the closes of the second nine-day
    series, over sixty days of highs and lows at 10. *)
Lemma calculateKDIndicator_zero_range_witness :
  exists kd : KDResult,
    calculateKDIndicator closesC flat60 flat60 = Some kd /\
    calculateKDIndicator closesX flat60 flat60 = Some kd.
Proof.
  apply (calculateKDIndicator_zero_range closesC closesX flat60 flat60 10).
  - split; cbn; lia.
  - exact flat60_all_10.
  - exact flat60_all_10.
  - reflexivity.
Defined.

End FlatRange.

(** ** Bookkeeping of stages 2 and 3 *)

Section StageBookkeeping.
Variable fmtFloat : nat -> Q -> string.
Variable fmtInt : Z -> string.
Local Open Scope go_scope.

(** Every check either moves the counter or leaves a reason. *)
Lemma tier_total excellent acceptable reason (st : checks) :
  (fst (tier excellent acceptable reason st) +
   List.length (snd (tier excellent acceptable reason st)))%nat =
  S (fst st + List.length (snd st)).
Proof.
  destruct st as [n rs], excellent, acceptable; cbn [tier fst snd];
    unfold push; rewrite ?length_app; cbn [List.length]; lia.
Qed.

Lemma binary_total pass reason (st : checks) :
  (fst (binary pass reason st) +
   List.length (snd (binary pass reason st)))%nat =
  S (fst st + List.length (snd st)).
Proof.
  destruct st as [n rs], pass; cbn [binary fst snd];
    unfold push; rewrite ?length_app; cbn [List.length]; lia.
Qed.

Lemma stage2_total s stock :
  (fst (stage2_checks fmtFloat fmtInt s stock) +
   List.length (snd (stage2_checks fmtFloat fmtInt s stock)))%nat = 7%nat.
Proof.
  unfold stage2_checks.
  rewrite !tier_total, binary_total, !tier_total. reflexivity.
Qed.

Lemma checkStage2Quality_snd s stock :
  snd (checkStage2Quality fmtFloat fmtInt s stock) =
  snd (stage2_checks fmtFloat fmtInt s stock).
Proof.
  unfold checkStage2Quality.
  destruct (stage2_checks fmtFloat fmtInt s stock); reflexivity.
Qed.

(** X6.  In [checkStage2Quality] each of the seven checks either counts
    as passed or contributes one reason, whatever the criteria are: the
    counter and the number of reasons add up to 7, and the stage passes
    exactly when it returns at most two reasons. *)
Theorem checkStage2Quality_reasons (s : StockScreener) (stock : StockData) :
  let result := checkStage2Quality fmtFloat fmtInt s stock in
  (fst (stage2_checks fmtFloat fmtInt s stock) +
   List.length (snd result))%nat = 7%nat /\
  (fst result = true <-> (List.length (snd result) <= 2)%nat).
Proof.
  cbv zeta. rewrite checkStage2Quality_snd, checkStage2Quality_fst.
  pose proof (stage2_total s stock) as Htotal.
  split; [exact Htotal|].
  rewrite ratio_7_threshold by lia.
  rewrite Nat.leb_le. lia.
Qed.

(** The price-against-average test is a comparison of the two. *)
Lemma priceDiff_sign (price ma60 : Q) :
  0 < ma60 ->
  (((price - ma60) / ma60) * 100 >=? 0) = (price >=? ma60).
Proof.
  intros Hma.
  assert (Hq : (price - ma60) / ma60 * ma60 == price - ma60).
  { field. intros H. rewrite H in Hma. apply (Qlt_irrefl 0 Hma). }
  set (q := (price - ma60) / ma60) in *.
  destruct (price >=? ma60) eqn:E.
  - apply Qle_bool_iff in E. apply Qle_bool_iff.
    assert (0 <= q).
    { unfold q. apply Qle_shift_div_l; [exact Hma | lra]. }
    lra.
  - destruct (q * 100 >=? 0) eqn:E'; [|reflexivity].
    apply Qle_bool_iff in E'.
    assert (H0 : 0 <= q) by lra.
    pose proof (Qmult_le_0_compat q ma60 H0 (Qlt_le_weak _ _ Hma)) as Hm.
    assert (Hle : ma60 <= price) by lra.
    apply Qle_bool_iff in Hle. congruence.
Qed.

(** The buy zone lies inside the watch zone. *)
Lemma zone_tiers (x : Q) :
  ((x >=? 50) && (x <=? 80)) || ((x >=? 30) && (x <? 90)) =
  (x >=? 30) && (x <? 90).
Proof.
  destruct ((x >=? 50) && (x <=? 80)) eqn:E; [|reflexivity].
  apply andb_true_iff in E. destruct E as [E1 E2].
  apply Qle_bool_iff in E1, E2. cbn [orb]. symmetry.
  apply andb_true_iff. split.
  - apply Qle_bool_iff. lra.
  - apply Qlt_bool_iff. lra.
Qed.

Lemma stage3_passCount stock :
  fst (stage3_checks fmtFloat stock) =
  count_occ bool_dec (stage3_conditions stock) true.
Proof.
  unfold stage3_checks, stage3_conditions.
  rewrite !fst_tier, !zone_tiers, !count_occ_b2n. cbn [count_occ].
  destruct (Price stock >? 0) eqn:Ep; cbn [andb].
  - destruct (MA60 stock >? 0) eqn:Em; cbn [andb].
    + rewrite fst_tier. cbn [fst].
      apply Qlt_bool_iff in Em.
      rewrite <- (priceDiff_sign (Price stock) (MA60 stock) Em).
      rewrite stricter_ge by lra. lia.
    + cbn [fst Nat.b2n]. lia.
  - cbn [fst Nat.b2n]. lia.
Qed.

Lemma stage3_total stock :
  (fst (stage3_checks fmtFloat stock) +
   List.length (snd (stage3_checks fmtFloat stock)))%nat =
  if trend_evaluated stock then 3%nat else 2%nat.
Proof.
  unfold stage3_checks, trend_evaluated.
  rewrite !tier_total.
  destruct ((Price stock >? 0) && (MA60 stock >? 0)).
  - rewrite tier_total. reflexivity.
  - reflexivity.
Qed.

Lemma checkStage3Technical_fst stock :
  fst (checkStage3Technical fmtFloat stock) =
  (ratio (fst (stage3_checks fmtFloat stock)) 3 >=? 0.5).
Proof.
  unfold checkStage3Technical.
  destruct (stage3_checks fmtFloat stock); reflexivity.
Qed.

Lemma checkStage3Technical_snd stock :
  snd (checkStage3Technical fmtFloat stock) =
  snd (stage3_checks fmtFloat stock).
Proof.
  unfold checkStage3Technical.
  destruct (stage3_checks fmtFloat stock); reflexivity.
Qed.

Lemma stage3_conditions_le_3 stock :
  (count_occ bool_dec (stage3_conditions stock) true <= 3)%nat.
Proof.
  unfold stage3_conditions. rewrite !count_occ_b2n. cbn [count_occ].
  repeat match goal with
         | |- context [Nat.b2n ?b] => destruct b; cbn [Nat.b2n]
         end; lia.
Qed.

Lemma ratio_3_threshold (n : nat) :
  (n <= 3)%nat -> (ratio n 3 >=? 0.5) = (2 <=? n)%nat.
Proof.
  intros Hn. do 4 (destruct n as [|n]; [reflexivity|]). lia.
Qed.

Lemma checkStage3Technical_passes stock :
  fst (checkStage3Technical fmtFloat stock) =
  (2 <=? count_occ bool_dec (stage3_conditions stock) true)%nat.
Proof.
  rewrite checkStage3Technical_fst, stage3_passCount.
  apply ratio_3_threshold, stage3_conditions_le_3.
Qed.

(** X7.  [checkStage3Technical] passes exactly when at least two of
    these three hold: price and MA60 are both positive and the price is
    not below the MA60; 30 <= %K < 90; 30 <= %D < 90. *)
Theorem checkStage3Technical_two_of_three (stock : StockData) :
  fst (checkStage3Technical fmtFloat stock) = true <->
  (2 <= count_occ bool_dec (stage3_conditions stock) true)%nat.
Proof.
  rewrite checkStage3Technical_passes. apply Nat.leb_le.
Qed.

(** X8.  When price or MA60 is not positive the price-against-average
    check of [checkStage3Technical] is skipped without a trace: it
    neither counts as passed nor contributes a reason, while the ratio is
    still taken over 3.  Counter and reasons add up to 3 when the check is
    evaluated and to 2 when it is not, and in the latter case the stage
    passes only with no reason at all. *)
Theorem checkStage3Technical_skipped_check (stock : StockData) :
  let result := checkStage3Technical fmtFloat stock in
  (fst (stage3_checks fmtFloat stock) + List.length (snd result))%nat =
    (if trend_evaluated stock then 3%nat else 2%nat) /\
  (trend_evaluated stock = false ->
   (fst result = true <-> snd result = [])).
Proof.
  cbv zeta. rewrite checkStage3Technical_snd, checkStage3Technical_fst.
  pose proof (stage3_total stock) as Htotal.
  split; [exact Htotal|].
  intros Hskip. rewrite Hskip in Htotal.
  rewrite ratio_3_threshold by lia. rewrite Nat.leb_le.
  destruct (snd (stage3_checks fmtFloat stock)) as [|r rs].
  - cbn [List.length] in Htotal. split; [reflexivity | lia].
  - cbn [List.length] in Htotal. split; [lia | discriminate].
Qed.


End StageBookkeeping.

Lemma checkStage3Technical_skipped_check_witness :
  trend_evaluated (zero_stock "2330") = false /\
  (fst (checkStage3Technical (fun _ _ => EmptyString) (zero_stock "2330"))
     = true <->
   snd (checkStage3Technical (fun _ _ => EmptyString) (zero_stock "2330"))
     = []).
Proof.
  assert (H : trend_evaluated (zero_stock "2330") = false) by reflexivity.
  split; [exact H|].
  exact (proj2 (checkStage3Technical_skipped_check
                  (fun _ _ => EmptyString) (zero_stock "2330")) H).
Defined.


(** ** The score of a listed candidate *)

Section ScoreRange.
Variable fmtFloat : nat -> Q -> string.
Local Open Scope go_scope.

(** A capped term is bounded below through the figure it reads. *)
Lemma capped_term_lower (x c w bound : Q) :
  0 < c -> 0 <= w -> bound <= 1 -> bound * c < x ->
  bound * w <= Qmin (x / c) 1 * w.
Proof.
  intros Hc Hw Hb Hx.
  apply Qmult_le_compat_r; [|exact Hw].
  apply Q.min_glb; [|exact Hb].
  apply Qle_shift_div_l; [exact Hc | apply Qlt_le_weak, Hx].
Qed.

Lemma capped_term_positive (x c w : Q) :
  0 < c -> 0 <= w -> 0 <= x -> 0 <= Qmin (x / c) 1 * w.
Proof.
  intros Hc Hw Hx.
  apply Qmult_le_0_compat; [|exact Hw].
  apply Q.min_glb; [|discriminate].
  apply Qle_shift_div_l; [exact Hc | lra].
Qed.

(** X10.  A candidate that passes stage 1 and has no negative number of
    dividend years scores more than -28; when its debt ratio is not
    negative either, it scores at most 110. *)
Theorem survivor_score_range (stock : StockData) :
  fst (checkStage1Fundamentals fmtFloat stock) = true ->
  (0 <= DividendYears stock)%Z ->
  -28 < Score (calculateScore stock) /\
  (0 <= DebtRatio stock -> Score (calculateScore stock) <= 110).
Proof.
  intros Hpass Hdiv.
  apply stage1_passes_iff in Hpass.
  assert (HROE : 0 < ROE stock)
    by (apply Qnot_le_lt; tauto).
  assert (Hdebt : DebtRatio stock < 80)
    by (apply Qnot_le_lt; tauto).
  assert (Hrev : -20 < RevenueGrowth stock)
    by (apply Qnot_le_lt; tauto).
  assert (Hyoy : -30 < YoYGrowth stock)
    by (apply Qnot_le_lt; tauto).
  assert (Hepsg : -50 < EPSGrowth stock)
    by (apply Qnot_le_lt; tauto).
  assert (Heps : 0 < EPS stock)
    by (apply Qnot_le_lt; tauto).
  pose proof (score_is_score_terms stock) as Hsum.
  pose proof (score_terms_bound stock) as Hupper.
  pose proof (debt_fraction (DebtRatio stock)) as Hfrac.
  split; [|intros Hd; rewrite Hsum; lra].
  rewrite Hsum. unfold score_terms, fundamental_terms, zone_bonuses.
  pose proof (capped_term_positive (ROE stock) 30 15) as T1.
  pose proof (capped_term_lower (RevenueGrowth stock) 20 10 (-1)) as T2.
  pose proof (capped_term_lower (YoYGrowth stock) 30 15 (-1)) as T3.
  pose proof (capped_term_lower (EPSGrowth stock) 200 20 (-1 # 4)) as T4.
  pose proof (capped_term_positive (EPS stock) 5 5) as T5.
  assert (Hd0 : 0 <= inject_Z (DividendYears stock)).
  { change 0 with (inject_Z 0). rewrite <- Zle_Qle. exact Hdiv. }
  pose proof (capped_term_positive
                (inject_Z (DividendYears stock)) 10 5) as T7.
  destruct (Price stock >? MA60 stock),
    ((50 <=? KValue stock) && (KValue stock <=? 80)),
    ((50 <=? DValue stock) && (DValue stock <=? 80)); lra.
Qed.

(** A capped term grows with the figure it reads. *)
Lemma capped_term_mono (x y c w : Q) :
  0 < c -> 0 <= w -> x <= y ->
  Qmin (x / c) 1 * w <= Qmin (y / c) 1 * w.
Proof.
  intros Hc Hw Hxy.
  apply Qmult_le_compat_r; [|exact Hw].
  apply Q.min_le_compat_r.
  unfold Qdiv. apply Qmult_le_compat_r; [exact Hxy|].
  apply Qinv_le_0_compat, Qlt_le_weak, Hc.
Qed.

(** X11.  The score is monotone in the fundamentals: a record that is at
    least as good on every fundamental figure (no lower ROE, revenue
    growth, year-over-year growth, EPS growth, EPS and dividend years, no
    higher debt ratio) and has the same technical figures never scores
    lower, hence is never ranked behind on score. *)
Theorem calculateScore_monotone (better stock : StockData) :
  at_least_as_good better stock ->
  Score (calculateScore stock) <= Score (calculateScore better).
Proof.
  intros ((H1 & H2 & H3 & H4 & H5 & H6) & H7 & (HP & HM & HK & HD)).
  rewrite !score_is_score_terms.
  unfold score_terms, fundamental_terms, zone_bonuses.
  rewrite HP, HM, HK, HD.
  pose proof (capped_term_mono _ _ 30 15 ltac:(reflexivity)
                ltac:(discriminate) H1) as T1.
  pose proof (capped_term_mono _ _ 20 10 ltac:(reflexivity)
                ltac:(discriminate) H2) as T2.
  pose proof (capped_term_mono _ _ 30 15 ltac:(reflexivity)
                ltac:(discriminate) H3) as T3.
  pose proof (capped_term_mono _ _ 200 20 ltac:(reflexivity)
                ltac:(discriminate) H4) as T4.
  pose proof (capped_term_mono _ _ 5 5 ltac:(reflexivity)
                ltac:(discriminate) H5) as T5.
  assert (H7' : inject_Z (DividendYears stock)
                <= inject_Z (DividendYears better))
    by (rewrite <- Zle_Qle; exact H7).
  pose proof (capped_term_mono _ _ 10 5 ltac:(reflexivity)
                ltac:(discriminate) H7') as T7.
  pose proof (debt_fraction (DebtRatio stock)) as F1.
  pose proof (debt_fraction (DebtRatio better)) as F2.
  destruct (Price stock >? MA60 stock),
    ((50 <=? KValue stock) && (KValue stock <=? 80)),
    ((50 <=? DValue stock) && (DValue stock <=? 80)); lra.
Qed.

Lemma calculateScore_monotone_witness :
  Score (calculateScore scenarioA)
  <= Score (calculateScore (set_DebtRatio 10 (set_ROE 25 scenarioA))).
Proof.
  apply (calculateScore_monotone
           (set_DebtRatio 10 (set_ROE 25 scenarioA)) scenarioA).
  unfold at_least_as_good. cbn.
  repeat split; try lra; try lia.
Defined.

End ScoreRange.

Lemma survivor_score_range_witness :
  -28 < Score (calculateScore scenarioA) /\
  (0 <= DebtRatio scenarioA -> Score (calculateScore scenarioA) <= 110).
Proof.
  apply (survivor_score_range (fun _ _ => EmptyString) scenarioA).
  - reflexivity.
  - cbn. lia.
Defined.

(** ** ROE estimators *)

Section EstimatorProperties.
Local Open Scope go_scope.

(** A boolean test of the source and the proposition it decides. *)
Lemma Qle_bool_cases (x y : Q) :
  (x <=? y) = true /\ x <= y \/ (x <=? y) = false /\ y < x.
Proof.
  destruct (x <=? y) eqn:E.
  - left. split; [reflexivity | apply Qle_bool_iff, E].
  - right. split; [reflexivity|].
    apply Qnot_le_lt. intros H. apply Qle_bool_iff in H. congruence.
Qed.

Lemma Qlt_bool_cases (x y : Q) :
  (x <? y) = true /\ x < y \/ (x <? y) = false /\ y <= x.
Proof.
  destruct (x <? y) eqn:E.
  - left. split; [reflexivity | apply Qlt_bool_iff, E].
  - right. split; [reflexivity | apply Qlt_bool_false_iff, E].
Qed.

(** Case analysis on every comparison of the goal. *)
Ltac split_comparisons :=
  unfold Qlt_bool in *;
  repeat match goal with
         | |- context [Qle_bool ?x ?y] =>
             let E := fresh "E" in
             let H := fresh "H" in
             destruct (Qle_bool_cases x y) as [[E H] | [E H]];
             rewrite ?E in *; cbn [negb andb orb] in *
         end.

Lemma not_positive_test (x : Q) : 0 < x -> (x <=? 0) = false.
Proof.
  intros Hpos.
  destruct (Qle_bool_cases x 0) as [[_ H] | [E _]]; [lra | exact E].
Qed.

(** With a positive EPS the estimate is written, and it is positive and
    at most 50. *)
Lemma dupont_estimate (stock : StockData) :
  0 < EPS stock ->
  exists roe : Q,
    estimateROEFromDuPont stock = Ok (set_ROE roe stock) /\
    0 < roe /\ roe <= 50.
Proof.
  intros Hpos. unfold estimateROEFromDuPont.
  rewrite (not_positive_test _ Hpos). cbv zeta.
  eexists. split; [reflexivity|].
  split_comparisons; split; lra.
Qed.

(** The estimate that reaches the final check is positive. *)
Lemma growth_adjusted_estimate_positive (stock : StockData) :
  0 < EPS stock -> 0 < growth_adjusted_estimate stock.
Proof.
  intros Hpos. unfold growth_adjusted_estimate. cbv zeta.
  split_comparisons; lra.
Qed.

(** X12.  [estimateROEFromDuPont] returns an error exactly when the EPS
    is not positive, and then leaves the record alone; otherwise it
    writes only the ROE.  The estimate that reaches its final check is
    positive, so the branch that replaces a negative estimate by 1 is
    never taken: the ROE written is that estimate, capped at 50, hence
    positive and at most 50. *)
Theorem estimateROEFromDuPont_range (stock : StockData) :
  (EPS stock <= 0 ->
   estimateROEFromDuPont stock =
   Error "insufficient data for DuPont analysis") /\
  (0 < EPS stock ->
   0 < growth_adjusted_estimate stock /\
   (growth_adjusted_estimate stock <? 0) = false /\
   estimateROEFromDuPont stock =
   Ok (set_ROE (if growth_adjusted_estimate stock >? 50 then 50
                else growth_adjusted_estimate stock) stock) /\
   exists roe : Q,
     estimateROEFromDuPont stock = Ok (set_ROE roe stock) /\
     0 < roe /\ roe <= 50).
Proof.
  split.
  - intros H. unfold estimateROEFromDuPont.
    apply Qle_bool_iff in H. rewrite H. reflexivity.
  - intros Hpos.
    pose proof (growth_adjusted_estimate_positive stock Hpos) as Hest.
    assert (Eneg : (growth_adjusted_estimate stock <? 0) = false)
      by (apply Qlt_bool_false_iff, Qlt_le_weak, Hest).
    split; [exact Hest|]. split; [exact Eneg|].
    split; [|apply dupont_estimate, Hpos].
    unfold estimateROEFromDuPont.
    rewrite (not_positive_test _ Hpos). cbv zeta.
    fold (growth_adjusted_estimate stock). rewrite Eneg. reflexivity.
Qed.

(** Scenario A: an EPS of 3 and a year-over-year growth of 25 give an
    estimate of 9. *)
Lemma estimateROEFromDuPont_range_witness :
  growth_adjusted_estimate scenarioA == 9 /\
  0 < growth_adjusted_estimate scenarioA /\
  (growth_adjusted_estimate scenarioA <? 0) = false /\
  estimateROEFromDuPont scenarioA =
  Ok (set_ROE (if growth_adjusted_estimate scenarioA >? 50 then 50
               else growth_adjusted_estimate scenarioA) scenarioA) /\
  exists roe : Q,
    estimateROEFromDuPont scenarioA = Ok (set_ROE roe scenarioA) /\
    0 < roe /\ roe <= 50.
Proof.
  split; [reflexivity|].
  apply (proj2 (estimateROEFromDuPont_range scenarioA)).
  reflexivity.
Defined.

(** The three steps of the estimate, each monotone. *)
Lemma dupont_base_mono (x y : Q) :
  0 < x -> x <= y ->
  (if x >=? 10 then 15 + (x - 10) * 0.5
   else if x >=? 5 then 10 + (x - 5) * 1
   else if x >=? 1 then 5 + (x - 1) * 1.25
   else x * 5)
  <=
  (if y >=? 10 then 15 + (y - 10) * 0.5
   else if y >=? 5 then 10 + (y - 5) * 1
   else if y >=? 1 then 5 + (y - 1) * 1.25
   else y * 5).
Proof. intros Hx Hxy. split_comparisons; lra. Qed.

Lemma dupont_base_positive (x : Q) :
  0 < x ->
  0 < (if x >=? 10 then 15 + (x - 10) * 0.5
       else if x >=? 5 then 10 + (x - 5) * 1
       else if x >=? 1 then 5 + (x - 1) * 1.25
       else x * 5).
Proof. intros Hx. split_comparisons; lra. Qed.

Lemma dupont_clamp_mono (a b : Q) :
  0 < a -> a <= b ->
  (if a >? 50 then 50 else if a <? 0 then 1 else a)
  <= (if b >? 50 then 50 else if b <? 0 then 1 else b).
Proof. intros Ha Hab. split_comparisons; lra. Qed.

(** X13.  The ROE [estimateROEFromDuPont] writes is monotone in the EPS:
    of two records with the same year-over-year growth, the one with the
    higher positive EPS never gets the lower estimate. *)
Theorem estimateROEFromDuPont_monotone (low high : StockData) :
  0 < EPS low -> EPS low <= EPS high ->
  YoYGrowth low = YoYGrowth high ->
  exists roe_low roe_high : Q,
    estimateROEFromDuPont low = Ok (set_ROE roe_low low) /\
    estimateROEFromDuPont high = Ok (set_ROE roe_high high) /\
    roe_low <= roe_high.
Proof.
  intros Hlow Hle Hyoy. unfold estimateROEFromDuPont.
  assert (E1 : (EPS low <=? 0) = false).
  { destruct (Qle_bool_cases (EPS low) 0) as [[_ H] | [E _]];
      [lra | exact E]. }
  assert (E2 : (EPS high <=? 0) = false).
  { destruct (Qle_bool_cases (EPS high) 0) as [[_ H] | [E _]];
      [lra | exact E]. }
  rewrite E1, E2, Hyoy. cbv zeta.
  eexists. eexists. split; [reflexivity|]. split; [reflexivity|].
  pose proof (dupont_base_mono _ _ Hlow Hle) as Hbase.
  pose proof (dupont_base_positive _ Hlow) as Hpos.
  set (bl := if EPS low >=? 10 then _ else _) in *.
  set (bh := if EPS high >=? 10 then _ else _) in *.
  apply dupont_clamp_mono.
  - destruct (YoYGrowth high >? 10); [lra|].
    destruct (YoYGrowth high <? -10); lra.
  - destruct (YoYGrowth high >? 10); [lra|].
    destruct (YoYGrowth high <? -10); lra.
Qed.

Lemma estimateROEFromDuPont_monotone_witness :
  exists roe_low roe_high : Q,
    estimateROEFromDuPont scenarioA = Ok (set_ROE roe_low scenarioA) /\
    estimateROEFromDuPont (set_EPS 12 scenarioA)
      = Ok (set_ROE roe_high (set_EPS 12 scenarioA)) /\
    roe_low <= roe_high.
Proof.
  apply (estimateROEFromDuPont_monotone scenarioA (set_EPS 12 scenarioA)).
  - reflexivity.
  - cbn. lra.
  - reflexivity.
Defined.

Lemma industry_benchmark_values (code : string) :
  industry_benchmark code = 12 \/ industry_benchmark code = 15 \/
  industry_benchmark code = 8 \/ industry_benchmark code = 6 \/
  industry_benchmark code = 10.
Proof.
  unfold industry_benchmark.
  repeat match goal with
         | |- context [if ?c then _ else _] => destruct c
         end; tauto.
Qed.

Lemma industry_estimate_bounds (stock : StockData) :
  4.2 <= ROE (estimateROEFromIndustry stock) /\
  ROE (estimateROEFromIndustry stock) <= 19.5.
Proof.
  unfold estimateROEFromIndustry. cbn [ROE set_ROE]. cbv zeta.
  destruct (industry_benchmark_values (Code stock))
    as [-> | [-> | [-> | [-> | ->]]]];
    destruct (EPSGrowth stock >? 20), (EPSGrowth stock <? -20);
    split; vm_compute; congruence.
Qed.

(** X14.  [estimateROEFromIndustry] writes only the ROE, and what it
    writes is the benchmark of the code (one of 6, 8, 10, 12, 15) times
    1.3, 0.7 or 1: a value between 4 and 20, inside the interval from 3
    to 30 to which the function clamps.  The clamp never changes
    anything. *)
Theorem estimateROEFromIndustry_range (stock : StockData) :
  let factor :=
    if EPSGrowth stock >? 20 then 1.3
    else if EPSGrowth stock <? -20 then 0.7
    else 1 in
  estimateROEFromIndustry stock =
    set_ROE (ROE (estimateROEFromIndustry stock)) stock /\
  ROE (estimateROEFromIndustry stock) ==
    industry_benchmark (Code stock) * factor /\
  4 <= ROE (estimateROEFromIndustry stock) /\
  ROE (estimateROEFromIndustry stock) <= 20.
Proof.
  cbv zeta. split; [reflexivity|].
  split.
  - unfold estimateROEFromIndustry. cbn [ROE set_ROE]. cbv zeta.
    destruct (industry_benchmark_values (Code stock))
      as [-> | [-> | [-> | [-> | ->]]]];
      destruct (EPSGrowth stock >? 20), (EPSGrowth stock <? -20);
      vm_compute; reflexivity.
  - destruct (industry_estimate_bounds stock) as [Hlo Hhi].
    split; lra.
Qed.

End EstimatorProperties.

(** ** Go's string order *)

Section StringOrder.
Local Open Scope string_scope.

Lemma ascii_compare_refl (a : Ascii.ascii) : Ascii.compare a a = Eq.
Proof. unfold Ascii.compare. apply N.compare_refl. Qed.

Lemma string_compare_refl (s : string) : String.compare s s = Eq.
Proof.
  induction s as [|a s IH]; cbn; [reflexivity|].
  rewrite ascii_compare_refl. exact IH.
Qed.

Lemma string_leb_refl (s : string) : (s <=? s) = true.
Proof. unfold String.leb. rewrite string_compare_refl. reflexivity. Qed.

Lemma string_ltb_leb (s t : string) : (s <? t) = negb (t <=? s).
Proof.
  unfold String.ltb, String.leb. rewrite (String.compare_antisym s t).
  destruct (String.compare t s); reflexivity.
Qed.

(** [compare] refines lexicographically: transitivity of "not greater". *)
Lemma string_compare_trans (s : string) :
  forall t u : string,
    String.compare s t <> Gt -> String.compare t u <> Gt ->
    String.compare s u <> Gt.
Proof.
  induction s as [|a s IH]; intros [|b t] [|c u]; cbn;
    try congruence.
  unfold Ascii.compare.
  destruct (N.compare_spec (Ascii.N_of_ascii a) (Ascii.N_of_ascii b))
    as [Hab|Hab|Hab];
    destruct (N.compare_spec (Ascii.N_of_ascii b) (Ascii.N_of_ascii c))
      as [Hbc|Hbc|Hbc];
    try congruence; intros H1 H2.
  - rewrite Hab, Hbc, N.compare_refl. apply (IH t u); assumption.
  - rewrite Hab. apply N.compare_lt_iff in Hbc. rewrite Hbc. congruence.
  - rewrite <- Hbc. apply N.compare_lt_iff in Hab. rewrite Hab. congruence.
  - assert (Hac : (Ascii.N_of_ascii a < Ascii.N_of_ascii c)%N) by lia.
    apply N.compare_lt_iff in Hac. rewrite Hac. congruence.
Qed.

Lemma string_leb_trans (s t u : string) :
  (s <=? t) = true -> (t <=? u) = true -> (s <=? u) = true.
Proof.
  unfold String.leb. intros H1 H2.
  pose proof (string_compare_trans s t u) as H.
  destruct (String.compare s t); try discriminate;
    destruct (String.compare t u); try discriminate;
    destruct (String.compare s u); try reflexivity;
    exfalso; apply H; congruence.
Qed.

Lemma string_ltb_neq (s t : string) : (s <? t) = true -> (s =? t) = false.
Proof.
  intros H. destruct (s =? t) eqn:E; [|reflexivity].
  apply String.eqb_eq in E. subst t.
  rewrite string_ltb_leb, string_leb_refl in H. discriminate.
Qed.

End StringOrder.

(** ** The latest quarter *)

Section LatestQuarter.
Local Open Scope string_scope.

(** While the loop of [getLatestQuarterEPS] runs over [rest], having
    seen [seen]: its candidate is the first entry of its date in the
    whole list and no entry seen is later. *)
Lemma latest_loop (rest : list EPSData) :
  forall (seen : list EPSData) (latest : EPSData),
    (forall e, In e seen -> (Date e <=? Date latest) = true) ->
    find (fun e => Date e =? Date latest) (seen ++ rest) = Some latest ->
    let final :=
      fold_left
        (fun latest data =>
           if Date latest <? Date data then data else latest)
        rest latest in
    (forall e, In e (seen ++ rest) -> (Date e <=? Date final) = true) /\
    find (fun e => Date e =? Date final) (seen ++ rest) = Some final.
Proof.
  induction rest as [|data rest IH]; intros seen latest Hseen Hfind.
  - cbn. rewrite app_nil_r in *. split; assumption.
  - cbn [fold_left].
    replace (seen ++ data :: rest)%list
      with ((seen ++ [data]) ++ rest)%list in *
      by (rewrite <- app_assoc; reflexivity).
    destruct (Date latest <? Date data) eqn:E.
    + apply IH.
      * intros e He. apply in_app_or in He. destruct He as [He | He].
        -- apply string_leb_trans with (Date latest); [apply Hseen, He|].
           rewrite string_ltb_leb in E. apply negb_true_iff in E.
           destruct (String.leb_total (Date latest) (Date data)) as [H|H];
             [exact H | congruence].
        -- destruct He as [<- | []]. apply string_leb_refl.
      * rewrite <- app_assoc. cbn [app].
        assert (Hskip : forall l,
                   (forall e, In e l -> (Date e <=? Date latest) = true) ->
                   find (fun e => Date e =? Date data)
                     (l ++ data :: rest)%list
                   = Some data).
        { induction l as [|x l IHl]; intros Hl; cbn [app find].
          - rewrite String.eqb_refl. reflexivity.
          - assert (Ex : (Date x =? Date data) = false).
            { destruct (Date x =? Date data) eqn:Ex; [|reflexivity].
              apply String.eqb_eq in Ex.
              specialize (Hl x (or_introl eq_refl)). rewrite Ex in Hl.
              rewrite string_ltb_leb, Hl in E. discriminate. }
            rewrite Ex. apply IHl. intros e He. apply Hl. right. exact He. }
        apply Hskip, Hseen.
    + apply IH; [|exact Hfind].
      intros e He. apply in_app_or in He. destruct He as [He | He].
      * apply Hseen, He.
      * destruct He as [<- | []].
        rewrite string_ltb_leb in E. apply negb_false_iff in E. exact E.
Qed.

(** X15.  [getLatestQuarterEPS] returns (0, "") for no data; otherwise
    the value and date it returns are those of an entry of the list, no
    entry has a later date, and among entries of that date it is the
    first one. *)
Theorem getLatestQuarterEPS_latest (epsData : list EPSData) :
  getLatestQuarterEPS [] = (0, "") /\
  (epsData <> [] ->
   exists latest : EPSData,
     getLatestQuarterEPS epsData = (Value latest, Date latest) /\
     In latest epsData /\
     (forall e, In e epsData -> (Date e <=? Date latest) = true) /\
     find (fun e => Date e =? Date latest) epsData = Some latest).
Proof.
  split; [reflexivity|].
  destruct epsData as [|first rest]; [congruence|]. intros _.
  unfold getLatestQuarterEPS.
  destruct (latest_loop (first :: rest) [] first) as [Hmax Hfind].
  - intros e [].
  - cbn [app find]. rewrite String.eqb_refl. reflexivity.
  - cbn [app] in Hmax, Hfind. eexists.
    split; [reflexivity|]. split; [|split; assumption].
    apply find_some in Hfind. apply Hfind.
Qed.

Lemma getLatestQuarterEPS_latest_witness :
  exists latest : EPSData,
    getLatestQuarterEPS
      [mkEPSData "2024-03-31" 2; mkEPSData "2025-03-31" 3;
       mkEPSData "2024-12-31" 4]
    = (Value latest, Date latest) /\
    In latest
      [mkEPSData "2024-03-31" 2; mkEPSData "2025-03-31" 3;
       mkEPSData "2024-12-31" 4] /\
    (forall e,
        In e [mkEPSData "2024-03-31" 2; mkEPSData "2025-03-31" 3;
              mkEPSData "2024-12-31" 4] ->
        (Date e <=? Date latest) = true) /\
    find (fun e => Date e =? Date latest)
      [mkEPSData "2024-03-31" 2; mkEPSData "2025-03-31" 3;
       mkEPSData "2024-12-31" 4]
    = Some latest.
Proof.
  apply (proj2 (getLatestQuarterEPS_latest
                  [mkEPSData "2024-03-31" 2; mkEPSData "2025-03-31" 3;
                   mkEPSData "2024-12-31" 4])).
  discriminate.
Defined.

(** The two functions are the same loop. *)
Lemma getLatestQuarterRevenue_EPS (data : list EPSData) :
  getLatestQuarterRevenue data = getLatestQuarterEPS data.
Proof. reflexivity. Qed.

End LatestQuarter.

(** ** The ROE fallback chain *)

Section ROEChain.
Local Open Scope string_scope.
Local Open Scope go_scope.

Variable fmtFloat : nat -> Q -> string.
Variable fetchNetIncome : string -> outcome (Q * string).
Variable fetchAverageEquity : string -> string -> outcome Q.
Variable fetchROEFromTWSE : StockData -> outcome StockData.


(** The methods below [calculatePreciseROE] and [fetchROEFromTWSE] always
    produce a positive ROE. *)
Lemma fallback_estimate (stock : StockData) :
  exists roe : Q,
    match estimateROEFromDuPont stock with
    | Ok stock' => Ok stock'
    | Error _ => Ok (estimateROEFromIndustry stock)
    end = Ok (set_ROE roe stock) /\
    0 < roe /\ roe <= 50.
Proof.
  destruct (Qlt_le_dec 0 (EPS stock)) as [Hpos | Hneg].
  - destruct (dupont_estimate stock Hpos) as (roe & Hroe & Hrange).
    exists roe. rewrite Hroe. split; [reflexivity | exact Hrange].
  - unfold estimateROEFromDuPont.
    apply Qle_bool_iff in Hneg. rewrite Hneg.
    destruct (industry_estimate_bounds stock) as [Hlo Hhi].
    exists (ROE (estimateROEFromIndustry stock)).
    split; [reflexivity|]. split; lra.
Qed.

(** X17.  [fetchROEData] never returns an error.  When both network
    methods fail it writes only the ROE, and the estimate it writes is
    positive and at most 50: such a record never meets the ROE <= 0
    condition of stage 1. *)
Theorem fetchROEData_fallback (stock : StockData) :
  let chain :=
    fetchROEData fmtFloat fetchNetIncome fetchAverageEquity
      fetchROEFromTWSE in
  (exists stock' : StockData, chain stock = Ok stock') /\
  ((forall stock', calculatePreciseROE fmtFloat fetchNetIncome
                     fetchAverageEquity stock <> Ok stock') ->
   (forall stock', fetchROEFromTWSE stock <> Ok stock') ->
   exists roe : Q,
     chain stock = Ok (set_ROE roe stock) /\
     0 < roe /\ roe <= 50 /\
     (ROE (set_ROE roe stock) <=? 0) = false).
Proof.
  cbv zeta. unfold fetchROEData.
  destruct (fallback_estimate stock) as (roe & Hroe & Hpos & Hle).
  split.
  - destruct (calculatePreciseROE fmtFloat fetchNetIncome
                fetchAverageEquity stock); [eexists; reflexivity|].
    destruct (fetchROEFromTWSE stock); [eexists; reflexivity|].
    exists (set_ROE roe stock). exact Hroe.
  - intros Hprecise Htwse.
    destruct (calculatePreciseROE fmtFloat fetchNetIncome
                fetchAverageEquity stock) as [s'|];
      [exfalso; apply (Hprecise s'); reflexivity|].
    destruct (fetchROEFromTWSE stock) as [s'|];
      [exfalso; apply (Htwse s'); reflexivity|].
    exists roe. split; [exact Hroe|]. split; [exact Hpos|].
    split; [exact Hle|]. cbn [ROE set_ROE].
    destruct (Qle_bool_cases roe 0) as [[_ H] | [E _]]; [lra | exact E].
Qed.

End ROEChain.


Lemma fetchROEData_fallback_witness :
  exists roe : Q,
    fetchROEData (fun _ _ => EmptyString)
      (fun _ => Error "down"%string) (fun _ _ => Error "down"%string)
      (fun _ => Error "down"%string) scenarioA
    = Ok (set_ROE roe scenarioA) /\
    0 < roe /\ roe <= 50 /\
    (ROE (set_ROE roe scenarioA) <=? 0)%go = false.
Proof.
  apply (proj2 (fetchROEData_fallback (fun _ _ => EmptyString)
                  (fun _ => Error "down"%string)
                  (fun _ _ => Error "down"%string)
                  (fun _ => Error "down"%string) scenarioA)).
  - intros stock' H. discriminate H.
  - intros stock' H. discriminate H.
Defined.

(** ** The fetch layer above the network *)

Section FetchFinancialProperties.
Local Open Scope string_scope.
Local Open Scope go_scope.

Variable fmtFloat : nat -> Q -> string.
Variable fmtInt : Z -> string.
Variable time_Parse : string -> option (Z * Z * Z).
Variable fmtDate : Z -> Z -> Z -> string.
Variable fetchNetIncome : string -> outcome (Q * string).
Variable fetchAverageEquity : string -> string -> outcome Q.
Variable fetchROEFromTWSE : StockData -> outcome StockData.
Variable fetchDebtRatioData : StockData -> outcome StockData.
Variable finMindStatements : string -> http_response (list Statement).
Variable twsePE : string -> http_response (option Q).

(** What the source of the two network functions shows: the one assigns
    [stock.ROE] and nothing else, the other [stock.DebtRatio] and nothing
    else. *)
Hypothesis fetchROEFromTWSE_writes :
  forall stock stock',
    fetchROEFromTWSE stock = Ok stock' ->
    stock' = set_ROE (ROE stock') stock.
Hypothesis fetchDebtRatioData_writes :
  forall stock stock',
    fetchDebtRatioData stock = Ok stock' ->
    stock' = set_DebtRatio (DebtRatio stock') stock.

Lemma fetchROEData_writes (stock stock' : StockData) :
  fetchROEData fmtFloat fetchNetIncome fetchAverageEquity
    fetchROEFromTWSE stock = Ok stock' ->
  stock' = set_ROE (ROE stock') stock.
Proof.
  unfold fetchROEData, calculatePreciseROE.
  destruct (fetchNetIncome (Code stock)) as [[netIncome incomeDate]|].
  - destruct (fetchAverageEquity (Code stock) incomeDate) as [avgEquity|].
    + destruct ((avgEquity >? 0) && negb (netIncome ==? 0)).
      * intros H. injection H as <-. reflexivity.
      * destruct (fetchROEFromTWSE stock) eqn:E.
        -- intros H. injection H as <-.
           apply fetchROEFromTWSE_writes, E.
        -- destruct (fallback_estimate stock) as (roe & -> & _).
           intros H. injection H as <-. reflexivity.
    + destruct (fetchROEFromTWSE stock) eqn:E.
      * intros H. injection H as <-. apply fetchROEFromTWSE_writes, E.
      * destruct (fallback_estimate stock) as (roe & -> & _).
        intros H. injection H as <-. reflexivity.
  - destruct (fetchROEFromTWSE stock) eqn:E.
    + intros H. injection H as <-. apply fetchROEFromTWSE_writes, E.
    + destruct (fallback_estimate stock) as (roe & -> & _).
      intros H. injection H as <-. reflexivity.
Qed.

(** A growth rate computed from two positive figures is above -100. *)
Lemma growth_above_minus_100 (latest previous : Q) :
  0 < previous -> 0 < latest ->
  -100 < ((latest - previous) / previous) * 100.
Proof.
  intros Hprev Hlatest.
  assert (Hq : (latest - previous) / previous * previous
               == latest - previous).
  { field. intros H. rewrite H in Hprev. apply (Qlt_irrefl 0 Hprev). }
  set (q := (latest - previous) / previous) in *.
  destruct (Qlt_le_dec (-1) q) as [H | H]; [lra|].
  exfalso.
  pose proof (Qmult_le_compat_r q (-1) previous H
                (Qlt_le_weak _ _ Hprev)) as Hm.
  lra.
Qed.

(** The last two steps of [fetchFromFinMind] touch only the ROE and the
    debt ratio. *)
Lemma after_ROE_and_debt (stock : StockData) :
  let stock1 :=
    match fetchROEData fmtFloat fetchNetIncome fetchAverageEquity
            fetchROEFromTWSE stock with
    | Ok stock' => stock'
    | Error _ => stock
    end in
  let stock2 :=
    match fetchDebtRatioData stock1 with
    | Ok stock' => stock'
    | Error _ => stock1
    end in
  stock2 = set_DebtRatio (DebtRatio stock2) (set_ROE (ROE stock2) stock).
Proof.
  cbv zeta.
  destruct (fetchROEData fmtFloat fetchNetIncome fetchAverageEquity
              fetchROEFromTWSE stock) as [s1|] eqn:E1.
  - apply fetchROEData_writes in E1.
    remember (ROE s1) as r eqn:Hr in E1. clear Hr. subst s1.
    destruct (fetchDebtRatioData (set_ROE r stock)) as [s2|] eqn:E2.
    + apply fetchDebtRatioData_writes in E2.
      remember (DebtRatio s2) as d eqn:Hd in E2. clear Hd. subst s2.
      destruct stock; reflexivity.
    + destruct stock; reflexivity.
  - destruct (fetchDebtRatioData stock) as [s2|] eqn:E2.
    + apply fetchDebtRatioData_writes in E2.
      remember (DebtRatio s2) as d eqn:Hd in E2. clear Hd. subst s2.
      destruct stock; reflexivity.
    + destruct stock; reflexivity.
Qed.

(** X18.  When FinMind answers, [fetchFromFinMind] succeeds.  It sets the
    EPS to the value of the latest EPS entry, 0 when there is none; each
    growth figure is either left as it was or computed from two positive
    figures, hence not below -100; revenue growth and year-over-year
    growth are rewritten together and to the same value. *)
Theorem fetchFromFinMind_figures
    (stock : StockData) (data : list Statement) :
  finMindStatements (Code stock) = Decoded data ->
  exists stock' : StockData,
    fetchFromFinMind fmtFloat time_Parse fmtDate fetchNetIncome
      fetchAverageEquity fetchROEFromTWSE fetchDebtRatioData
      finMindStatements stock = Ok stock' /\
    EPS stock' =
      fst (getLatestQuarterEPS (fst (fold_left collect_step data ([], []))))
    /\
    (EPSGrowth stock' = EPSGrowth stock \/
     -100 <= EPSGrowth stock' /\ 0 < EPS stock') /\
    (YoYGrowth stock' = YoYGrowth stock /\
     RevenueGrowth stock' = RevenueGrowth stock \/
     -100 <= YoYGrowth stock' /\
     RevenueGrowth stock' = YoYGrowth stock').
Proof.
  intros Hdata. unfold fetchFromFinMind. rewrite Hdata.
  destruct (fold_left collect_step data ([], [])) as [epsData revenueData].
  cbn [fst].
  destruct (getLatestQuarterEPS epsData) as [latestEPS latestEPSDate].
  destruct (getLatestQuarterRevenue revenueData)
    as [latestRevenue latestRevenueDate].
  cbv zeta. cbn [fst].
  set (lastEPS := getSameQuarterLastYearEPS _ _ epsData latestEPSDate).
  set (lastRevenue :=
         getSameQuarterLastYearRevenue _ _ revenueData latestRevenueDate).
  eexists. split; [reflexivity|].
  match goal with
  | |- context [fetchDebtRatioData
                  (match fetchROEData _ _ _ _ ?s with _ => _ end)] =>
      rewrite (after_ROE_and_debt s)
  end.
  cbn [EPS EPSGrowth YoYGrowth RevenueGrowth set_DebtRatio set_ROE].
  split.
  - destruct ((lastRevenue >? 0) && (latestRevenue >? 0)),
      ((lastEPS >? 0) && (latestEPS >? 0)); reflexivity.
  - destruct ((lastEPS >? 0) && (latestEPS >? 0)) eqn:Ee;
      destruct ((lastRevenue >? 0) && (latestRevenue >? 0)) eqn:Er;
      cbn [EPS EPSGrowth YoYGrowth RevenueGrowth set_YoYGrowth
             set_RevenueGrowth set_EPSGrowth set_EPS];
      try (apply andb_true_iff in Ee; destruct Ee as [Ee1 Ee2];
           apply Qlt_bool_iff in Ee1, Ee2);
      try (apply andb_true_iff in Er; destruct Er as [Er1 Er2];
           apply Qlt_bool_iff in Er1, Er2);
      split;
      try (left; split; reflexivity); try (left; reflexivity);
      right; split;
      try (apply Qlt_le_weak, growth_above_minus_100; assumption);
      try assumption; reflexivity.
Qed.

(** X19.  [FetchFinancialData] never returns an error.  When FinMind and
    TWSE both fail, the record it returns carries the default figures
    (ROE 10, revenue growth 3, debt ratio 35, 3 dividend years,
    year-over-year growth 15, EPS growth 50, EPS 2), which pass stage 1
    and all seven checks of stage 2 under the criteria of
    [NewStockScreener]. *)
Theorem FetchFinancialData_defaults (stockCode : string) :
  let fetch_fundamentals :=
    FetchFinancialData fmtFloat time_Parse fmtDate fetchNetIncome
      fetchAverageEquity fetchROEFromTWSE fetchDebtRatioData
      finMindStatements twsePE in
  (exists stock : StockData, fetch_fundamentals stockCode = Ok stock) /\
  ((forall data, finMindStatements stockCode <> Decoded data) ->
   (forall pe, twsePE stockCode <> Decoded pe) ->
   exists stock : StockData,
     fetch_fundamentals stockCode = Ok stock /\
     stock = set_EPS 2 (set_EPSGrowth 50
               (set_YoYGrowth 15 (default_stock stockCode))) /\
     checkStage1Fundamentals fmtFloat stock = (true, []) /\
     stage2_checks fmtFloat fmtInt NewStockScreener stock = (7%nat, [])).
Proof.
  cbv zeta. unfold FetchFinancialData. split.
  - destruct (fetchFromFinMind _ _ _ _ _ _ _ _ _);
      [eexists; reflexivity|].
    destruct (fetchFromTWSE _ _); eexists; reflexivity.
  - intros Hfin Htwse.
    unfold fetchFromFinMind, fetchFromTWSE. cbn [Code default_stock].
    destruct (finMindStatements stockCode) as [e|e|data] eqn:E1;
      [| |exfalso; apply (Hfin data); reflexivity];
      (destruct (twsePE stockCode) as [e'|e'|pe] eqn:E2;
       [| |exfalso; apply (Htwse pe); reflexivity]);
      eexists; repeat split.
Qed.

(** X20.  When FinMind fails and TWSE answers, [FetchFinancialData]
    returns a record whose EPS is still 0: whatever TWSE says, the
    candidate fails stage 1. *)
Theorem FetchFinancialData_TWSE_only (stockCode : string) (pe : option Q) :
  (forall data, finMindStatements stockCode <> Decoded data) ->
  twsePE stockCode = Decoded pe ->
  exists stock : StockData,
    FetchFinancialData fmtFloat time_Parse fmtDate fetchNetIncome
      fetchAverageEquity fetchROEFromTWSE fetchDebtRatioData
      finMindStatements twsePE stockCode = Ok stock /\
    EPS stock = 0 /\
    fst (checkStage1Fundamentals fmtFloat stock) = false.
Proof.
  intros Hfin Htwse.
  unfold FetchFinancialData, fetchFromFinMind, fetchFromTWSE.
  cbn [Code default_stock]. rewrite Htwse.
  destruct (finMindStatements stockCode) as [e|e|data] eqn:E1;
    [| |exfalso; apply (Hfin data); reflexivity];
    destruct pe as [pe|]; eexists;
      (split; [reflexivity|]); (split; [reflexivity|]);
      apply stage1_fails_iff; cbn; do 5 right; lra.
Qed.

End FetchFinancialProperties.

(** FinMind reports an EPS of 2 and a revenue of 100 for the first
    quarter of 2024, and 3 and 125 for the first quarter of 2025; the net
    income is not available, TWSE gives an ROE of 18 and the balance
    sheet a debt ratio of 30.  The record comes back with an EPS of 3, an
    EPS growth of 50 and a revenue growth of 25. *)
Lemma fetchFromFinMind_figures_witness :
  fetchFromFinMind (fun _ _ => EmptyString) parse_quarter format_quarter
    (fun _ => Error "offline"%string) (fun _ _ => Error "offline"%string)
    (fun stock => Ok (set_ROE 18 stock))
    (fun stock => Ok (set_DebtRatio 30 stock))
    (fun _ => Decoded two_years) (default_stock "2330")
  = Ok (set_DebtRatio 30
          (set_ROE 18
             (set_RevenueGrowth (((125 - 100) / 100) * 100)
                (set_YoYGrowth (((125 - 100) / 100) * 100)
                   (set_EPSGrowth (((3 - 2) / 2) * 100)
                      (set_EPS 3 (default_stock "2330"))))))) /\
  exists stock' : StockData,
    fetchFromFinMind (fun _ _ => EmptyString) parse_quarter format_quarter
      (fun _ => Error "offline"%string) (fun _ _ => Error "offline"%string)
      (fun stock => Ok (set_ROE 18 stock))
      (fun stock => Ok (set_DebtRatio 30 stock))
      (fun _ => Decoded two_years) (default_stock "2330") = Ok stock' /\
    EPS stock' =
      fst (getLatestQuarterEPS
             (fst (fold_left collect_step two_years ([], [])))) /\
    (EPSGrowth stock' = EPSGrowth (default_stock "2330") \/
     -100 <= EPSGrowth stock' /\ 0 < EPS stock') /\
    (YoYGrowth stock' = YoYGrowth (default_stock "2330") /\
     RevenueGrowth stock' = RevenueGrowth (default_stock "2330") \/
     -100 <= YoYGrowth stock' /\
     RevenueGrowth stock' = YoYGrowth stock').
Proof.
  split; [vm_compute; reflexivity|].
  apply (fetchFromFinMind_figures (fun _ _ => EmptyString)
           parse_quarter format_quarter
           (fun _ => Error "offline"%string)
           (fun _ _ => Error "offline"%string)
           (fun stock => Ok (set_ROE 18 stock))
           (fun stock => Ok (set_DebtRatio 30 stock))
           (fun _ => Decoded two_years)).
  - intros stock stock' H. injection H as <-. reflexivity.
  - intros stock stock' H. injection H as <-. reflexivity.
  - reflexivity.
Defined.

Lemma FetchFinancialData_TWSE_only_witness :
  exists stock : StockData,
    FetchFinancialData (fun _ _ => EmptyString) (fun _ => None)
      (fun _ _ _ => EmptyString)
      (fun _ => Error "offline"%string) (fun _ _ => Error "offline"%string)
      (fun _ => Error "offline"%string) (fun _ => Error "offline"%string)
      (fun _ => RequestFailed "offline"%string)
      (fun _ => Decoded (Some 12)) "2330"%string = Ok stock /\
    EPS stock = 0 /\
    fst (checkStage1Fundamentals (fun _ _ => EmptyString) stock) = false.
Proof.
  apply (FetchFinancialData_TWSE_only (fun _ _ => EmptyString)
           (fun _ => None) (fun _ _ _ => EmptyString)
           (fun _ => Error "offline"%string)
           (fun _ _ => Error "offline"%string)
           (fun _ => Error "offline"%string)
           (fun _ => Error "offline"%string)
           (fun _ => RequestFailed "offline"%string)
           (fun _ => Decoded (Some 12)) "2330"%string (Some 12)).
  - intros data H. discriminate H.
  - reflexivity.
Defined.

(** ** Symbols and price cleaning *)

Section TechnicalProperties.
Local Open Scope string_scope.
Local Open Scope go_scope.

Lemma string_length_append (s t : string) :
  String.length (s ++ t) = (String.length s + String.length t)%nat.
Proof. induction s as [|a s IH]; cbn; [reflexivity | rewrite IH; lia]. Qed.

Lemma string_append_cancel (s1 : string) :
  forall s2 t : string, s1 ++ t = s2 ++ t -> s1 = s2.
Proof.
  induction s1 as [|a s1 IH]; intros [|b s2] t H.
  - reflexivity.
  - exfalso. apply (f_equal String.length) in H.
    cbn in H. rewrite string_length_append in H. lia.
  - exfalso. apply (f_equal String.length) in H.
    cbn in H. rewrite string_length_append in H. lia.
  - cbn in H. injection H as -> H. f_equal. apply (IH s2 t H).
Qed.

Lemma TWO_is_not_TW (s t : string) : s ++ ".TWO" <> t ++ ".TW".
Proof.
  intros H.
  assert (Hlen : (String.length t = String.length s + 1)%nat).
  { apply (f_equal String.length) in H.
    rewrite !string_length_append in H. cbn in H. lia. }
  pose proof (append_correct2 s ".TWO" 3) as H1.
  pose proof (append_correct2 t ".TW" 2) as H2.
  rewrite H in H1.
  replace (3 + String.length s)%nat with (2 + String.length t)%nat
    in H1 by lia.
  rewrite <- H2 in H1. cbn in H1. discriminate H1.
Qed.

(** X21.  [buildYahooSymbol] appends ".TWO" to the three codes of its
    table and ".TW" to every other code, and it is injective: two
    different codes never get the same symbol. *)
Theorem buildYahooSymbol_injective (code code' : string) :
  (buildYahooSymbol code = code ++ ".TWO" /\
   (code = "6000" \/ code = "6005" \/ code = "3379") \/
   buildYahooSymbol code = code ++ ".TW" /\
   code <> "6000" /\ code <> "6005" /\ code <> "3379") /\
  (buildYahooSymbol code = buildYahooSymbol code' -> code = code').
Proof.
  split.
  - unfold buildYahooSymbol, lookup_bool, otcStocks. cbn [find fst snd].
    destruct (String.eqb_spec "6000" code) as [<- | H1];
      [left; split; [reflexivity | tauto]|].
    destruct (String.eqb_spec "6005" code) as [<- | H2];
      [left; split; [reflexivity | tauto]|].
    destruct (String.eqb_spec "3379" code) as [<- | H3];
      [left; split; [reflexivity | tauto]|].
    right. split; [reflexivity|]. repeat split; congruence.
  - unfold buildYahooSymbol.
    destruct (lookup_bool otcStocks code),
      (lookup_bool otcStocks code'); intros H.
    + apply (string_append_cancel _ _ _ H).
    + exfalso. apply (TWO_is_not_TW _ _ H).
    + exfalso. symmetry in H. apply (TWO_is_not_TW _ _ H).
    + apply (string_append_cancel _ _ _ H).
Qed.

(** The cleaning loop, accumulator included. *)
Lemma cleanPrices_positive_from (raw : list (option Q)) :
  forall prices : list Q,
    all_positive prices ->
    all_positive
      (fold_left
         (fun prices c =>
            match c with
            | Some price =>
                if price >? 0 then (prices ++ [price])%list else prices
            | None => prices
            end)
         raw prices).
Proof.
  induction raw as [|c raw IH]; intros prices Hpos; cbn [fold_left].
  - exact Hpos.
  - apply IH. destruct c as [price|]; [|exact Hpos].
    destruct (price >? 0) eqn:E; [|exact Hpos].
    apply Forall_app. split; [exact Hpos|].
    constructor; [apply Qlt_bool_iff, E | constructor].
Qed.

Lemma cleanPrices_positive (raw : list (option Q)) :
  all_positive (cleanPrices raw).
Proof. apply cleanPrices_positive_from. constructor. Qed.

(** A sum of positive numbers, started from a number that is not
    negative. *)
Lemma fold_sum_positive (xs : list Q) :
  all_positive xs -> xs <> [] ->
  forall sum : Q, 0 <= sum -> 0 < fold_left Qplus xs sum.
Proof.
  induction 1 as [|x xs Hx Hxs IH]; intros Hne sum Hsum; [congruence|].
  cbn [fold_left]. destruct xs as [|y ys].
  - cbn. lra.
  - apply IH; [discriminate | lra].
Qed.

(** X22.  The slices [FetchTechnicalData] hands to
    [calculateTechnicalIndicators] hold positive prices only, so whenever
    the three cleaned slices have 60 entries and the call returns, the
    MA60 it stores is positive: with a positive price stage 3 then
    evaluates its price-against-average check. *)
Theorem quoteIndicators_MA60_positive
    (stock stock' : StockData) (closesRaw highsRaw lowsRaw : list (option Q)) :
  (60 <= List.length (cleanPrices closesRaw))%nat ->
  (60 <= List.length (cleanPrices highsRaw))%nat ->
  (60 <= List.length (cleanPrices lowsRaw))%nat ->
  quoteIndicators stock closesRaw highsRaw lowsRaw = Some stock' ->
  all_positive (cleanPrices closesRaw) /\
  all_positive (cleanPrices highsRaw) /\
  all_positive (cleanPrices lowsRaw) /\
  0 < MA60 stock' /\
  (0 < Price stock -> trend_evaluated stock' = true).
Proof.
  intros Hc Hh Hl Hrun. unfold quoteIndicators in Hrun. cbv zeta in Hrun.
  pose proof (cleanPrices_positive closesRaw) as Pc.
  set (closes := cleanPrices closesRaw) in *.
  set (highs := cleanPrices highsRaw) in *.
  set (lows := cleanPrices lowsRaw) in *.
  assert (Hcov : covers_closes closes highs lows).
  { unfold covers_closes.
    destruct (Nat.lt_ge_cases (List.length highs) (List.length closes))
      as [H1 | H1];
      [|destruct (Nat.lt_ge_cases (List.length lows) (List.length closes))
          as [H2 | H2]; [|split; assumption]].
    - rewrite (calculateTechnicalIndicators_misaligned
                 stock closes highs lows)
        in Hrun; [discriminate | lia | left; exact H1].
    - rewrite (calculateTechnicalIndicators_misaligned
                 stock closes highs lows)
        in Hrun; [discriminate | lia | right; exact H2]. }
  destruct (calculateTechnicalIndicators_long stock closes highs lows
              Hc Hcov) as (kd & _ & Hlong).
  rewrite Hlong in Hrun. injection Hrun as <-.
  split; [exact Pc|].
  split; [apply cleanPrices_positive|].
  split; [apply cleanPrices_positive|].
  assert (Hma : 0 < trailing_mean_60 closes).
  { unfold trailing_mean_60. apply Qlt_shift_div_l; [reflexivity|].
    change (0 * 60) with 0.
    apply fold_sum_positive.
    - unfold all_positive in *. rewrite Forall_forall in *.
      intros x Hx. apply Pc.
      rewrite <- (firstn_skipn (List.length closes - 60) closes).
      apply in_or_app. right. exact Hx.
    - intros Hnil. apply (f_equal (@List.length Q)) in Hnil.
      rewrite length_skipn in Hnil. cbn in Hnil. lia.
    - apply Qle_refl. }
  split; [exact Hma|].
  intros Hprice. unfold trend_evaluated.
  cbn [Price MA60 set_AvgVolume set_DValue set_KValue set_MA60].
  apply andb_true_iff. split; apply Qlt_bool_iff; assumption.
Qed.

End TechnicalProperties.

Lemma quoteIndicators_MA60_positive_witness :
  all_positive (cleanPrices raw60) /\
  all_positive (cleanPrices raw60) /\
  all_positive (cleanPrices raw60) /\
  0 < MA60 scenarioA_after_quote /\
  (0 < Price scenarioA -> trend_evaluated scenarioA_after_quote = true).
Proof.
  apply (quoteIndicators_MA60_positive scenarioA scenarioA_after_quote
           raw60 raw60 raw60).
  - vm_compute. apply le_n.
  - vm_compute. apply le_n.
  - vm_compute. apply le_n.
  - vm_compute. reflexivity.
Defined.
